(** * suricata-verify: the test runner [run.py]

    A shallow embedding of the version model, the field resolver, the
    declarative checks and the test runner of [run.py], with the properties
    its specification states about them.

    Conventions.  Python values are modelled by the type [value]; a call that
    may raise returns a [result]; the runner, which spawns processes, threads
    a trace of its effects through a small state-and-error monad.  The script
    is a Python 2 program (see its first line), so Python 2 semantics are the
    ones modelled where the two major versions differ. *)

From Stdlib Require Import ZArith List String Ascii Bool Lia.
From Stdlib Require Decimal DecimalNat DecimalString.
From Stdlib Require Import Permutation.
Import ListNotations.

Local Open Scope string_scope.
Local Open Scope Z_scope.

Set Warnings "-register-all".

(** ** Characters and strings *)

(** [\d] on a byte string: the ten ASCII digits. *)
Definition is_digit (c : ascii) : bool :=
  let n := N_of_ascii c in ((48 <=? n) && (n <=? 57))%N.

(** The characters [str.strip()] removes: space, tab, line feed, carriage
    return, vertical tab and form feed. *)
Definition is_space (c : ascii) : bool :=
  let n := N_of_ascii c in ((n =? 32) || ((9 <=? n) && (n <=? 13)))%N.

Definition is_empty (s : string) : bool :=
  match s with EmptyString => true | String _ _ => false end.

Fixpoint lstrip (s : string) : string :=
  match s with
  | EmptyString => EmptyString
  | String c r => if is_space c then lstrip r else s
  end.

Fixpoint rstrip (s : string) : string :=
  match s with
  | EmptyString => EmptyString
  | String c r =>
      let r' := rstrip r in
      if is_space c && is_empty r' then EmptyString else String c r'
  end.

(** [s.strip()] *)
Definition strip (s : string) : string := rstrip (lstrip s).

(** [int(s)] on a string of ASCII digits. *)
Definition digit_val (c : ascii) : Z := Z.of_N (N_of_ascii c) - 48.

Fixpoint int_acc (acc : Z) (s : string) : Z :=
  match s with
  | EmptyString => acc
  | String c r => int_acc (10 * acc + digit_val c) r
  end.

Definition int (s : string) : Z := int_acc 0 s.

(** A byte of the ASCII range, below 128. *)
Definition is_ascii (c : ascii) : bool := (N_of_ascii c <? 128)%N.

Fixpoint all_ascii (s : string) : bool :=
  match s with
  | EmptyString => true
  | String c r => is_ascii c && all_ascii r
  end.

(** [s.decode()] of a byte string, with the ASCII codec that Python 2 has
    by default: the same characters, or [None] for the
    [UnicodeDecodeError] that a byte of 128 or more raises. *)
Definition decode (s : string) : option string :=
  if all_ascii s then Some s else None.

(** The white space of a decoded (unicode) string, among the ASCII
    characters: that of a byte string and the four separators 28 to 31. *)
Definition is_uspace (c : ascii) : bool :=
  let n := N_of_ascii c in (is_space c || ((28 <=? n) && (n <=? 31)))%N.

(** The first character of [s] is white space of a decoded string. *)
Definition lead_uspace (s : string) : bool :=
  match s with
  | String c _ => is_uspace c
  | EmptyString => false
  end.

(** ** VersionModel *)

(** [SuricataVersion = namedtuple("SuricataVersion", ["major", "minor",
    "patch"])]; a field holds an integer or [None]. *)
Record SuricataVersion : Type := mkVersion {
  major : option Z;
  minor : option Z;
  patch : option Z
}.

(** The longest prefix of digits, and what follows it: a greedy [\d*]. *)
Fixpoint span_digits (s : string) : string * string :=
  match s with
  | EmptyString => (EmptyString, EmptyString)
  | String c r =>
      if is_digit c
      then let (d, rest) := span_digits r in (String c d, rest)
      else (EmptyString, s)
  end.

(** [\.?]: consumes one dot when there is one. *)
Definition opt_dot (s : string) : string :=
  match s with
  | String c r => if Ascii.eqb c "." then r else s
  | EmptyString => s
  end.

(** [(\d+)?]: the group is the longest run of digits, or does not take part
    in the match ([None]) when no digit is next. *)
Definition opt_digits (s : string) : option string * string :=
  let (d, rest) := span_digits s in
  if is_empty d then (None, s) else (Some d, rest).

(** A match of [(\d+)\.?(\d+)?\.?(\d+)?.*] that starts at the head of [s],
    which is a digit.  Every quantifier is greedy, and whatever the greedy
    choices leave is accepted by the rest of the pattern (each later item is
    optional and [.*] matches the empty string), so the first attempt of the
    backtracking matcher succeeds and these are the groups it reports. *)
Definition match_version_here (s : string)
  : string * option string * option string :=
  let (g1, r1) := span_digits s in
  let (g2, r2) := opt_digits (opt_dot r1) in
  let (g3, _) := opt_digits (opt_dot r2) in
  (g1, g2, g3).

(** [re.search]: the leftmost position at which the pattern matches; the
    pattern matches at a position iff a digit stands there. *)
Fixpoint search_version (s : string)
  : option (string * option string * option string) :=
  match s with
  | EmptyString => None
  | String c r =>
      if is_digit c then Some (match_version_here s) else search_version r
  end.

(** The version of the groups of a match: [int] of a group that took part
    in the match, [None] for one that did not.  Group 1 always does. *)
Definition version_of_groups (g : string * option string * option string)
  : SuricataVersion :=
  let '(g1, g2, g3) := g in
  {| major := Some (int g1);
     minor := option_map int g2;
     patch := option_map int g3 |}.

(** [parse_suricata_version(buf)], on [str(buf)]. *)
Definition parse_suricata_version (buf : string) : option SuricataVersion :=
  match search_version (strip buf) with
  | Some groups => Some (version_of_groups groups)
  | None => None
  end.

(** Python's [==] and [!=] on two values that are integers or [None]. *)
Definition opt_eqb (a b : option Z) : bool :=
  match a, b with
  | Some x, Some y => x =? y
  | None, None => true
  | _, _ => false
  end.

(** [version_equal(a, b)] *)
Definition version_equal (a b : SuricataVersion) : bool :=
  if negb (opt_eqb (major a) (major b)) then false
  else if (match minor a, minor b with
           | Some x, Some y => negb (x =? y)
           | _, _ => false
           end) then false
  else if (match patch a, patch b with
           | Some x, Some y => negb (x =? y)
           | _, _ => false
           end) then false
  else true.

(** Python 2 orders [None] below every integer. *)
Definition py2_ltb (a b : option Z) : bool :=
  match a, b with
  | None, None => false
  | None, Some _ => true
  | Some _, None => false
  | Some x, Some y => x <? y
  end.

(** [version_gte(v1, v2)] *)
Definition version_gte (v1 v2 : SuricataVersion) : bool :=
  if py2_ltb (major v1) (major v2) then false
  else if py2_ltb (major v2) (major v1) then true
  else if py2_ltb (minor v1) (minor v2) then false
  else if py2_ltb (minor v2) (minor v1) then true
  else if py2_ltb (patch v1) (patch v2) then false
  else true.

(** ** Python values *)

(** A decoded JSON or YAML document: [None], booleans, integers, strings,
    lists and dictionaries with string keys.  A dictionary is the list of
    its items in iteration order; its keys are pairwise distinct, and
    [lookup] reads the first item of a key.  Floating-point numbers are
    left out of the model. *)
Inductive value : Type :=
| VNone
| VBool (b : bool)
| VInt (n : Z)
| VStr (s : string)
| VList (l : list value)
| VDict (d : list (string * value)).

Definition dict : Type := list (string * value).

Fixpoint lookup (k : string) (d : dict) : option value :=
  match d with
  | [] => None
  | (k', v) :: r => if String.eqb k k' then Some v else lookup k r
  end.

(** [k in d] for a dictionary [d]. *)
Definition has_key (k : string) (d : dict) : bool :=
  match lookup k d with Some _ => true | None => false end.

(** The integer a boolean or an integer stands for in a comparison. *)
Definition as_number (v : value) : option Z :=
  match v with
  | VInt n => Some n
  | VBool b => Some (if b then 1 else 0)
  | _ => None
  end.

(** Python's [a == b]: booleans are the integers 0 and 1, lists are
    compared item by item, dictionaries key by key. *)
Fixpoint py_eq (a b : value) {struct a} : bool :=
  match a, b with
  | VNone, VNone => true
  | VBool x, _ =>
      match as_number b with
      | Some n => (if x then 1 else 0) =? n
      | None => false
      end
  | VInt x, _ =>
      match as_number b with Some n => x =? n | None => false end
  | VStr x, VStr y => String.eqb x y
  | VList xs, VList ys =>
      (fix items (xs ys : list value) {struct xs} : bool :=
         match xs, ys with
         | [], [] => true
         | x :: xs', y :: ys' => py_eq x y && items xs' ys'
         | _, _ => false
         end) xs ys
  | VDict d, VDict e =>
      Nat.eqb (List.length d) (List.length e)
      && (fix items (d : list (string * value)) {struct d} : bool :=
            match d with
            | [] => true
            | (k, v) :: r =>
                match lookup k e with
                | Some w => py_eq v w
                | None => false
                end && items r
            end) d
  | _, _ => false
  end.

(** [v is None] *)
Definition is_None (v : value) : bool :=
  match v with VNone => true | _ => false end.

(** ** Exceptions *)

(** The text of an exception.  A message built with the [%] operator is
    kept as its template and its arguments, in order; an argument of [%s]
    stands for its [str()]. *)
Inductive message : Type :=
| Text (v : value)
| Format (template : string) (args : list value)
| OfProcessError.

Inductive exn : Type :=
| TestError (m : message)
| UnsatisfiedRequirementError (m : message)
| TypeError
| KeyError
| AttributeError
| IOError
| CalledProcessError.

Inductive result (A : Type) : Type :=
| Ok (a : A)
| Raise (e : exn).

Arguments Ok {A} a.
Arguments Raise {A} e.

Definition bind {A B : Type} (r : result A) (k : A -> result B) : result B :=
  match r with
  | Ok a => k a
  | Raise e => Raise e
  end.

Declare Scope result_scope.
Delimit Scope result_scope with result.
Notation "x <- r ;; k" := (bind r (fun x => k))
  (at level 61, r at next level, right associativity) : result_scope.

(** An argument of [%d] has to be a number. *)
Definition fmt_d (v : value) : result value :=
  match as_number v with
  | Some n => Ok (VInt n)
  | None => Raise TypeError
  end.

(** ** FieldResolver *)

(** [name.split(".")] *)
Fixpoint split_dot (s : string) : list string :=
  match s with
  | EmptyString => [EmptyString]
  | String c r =>
      if Ascii.eqb c "."
      then EmptyString :: split_dot r
      else match split_dot r with
           | h :: t => String c h :: t
           | [] => [String c EmptyString]
           end
  end.

Fixpoint rev_string_acc (s acc : string) : string :=
  match s with
  | EmptyString => acc
  | String c r => rev_string_acc r (String c acc)
  end.

Definition rev_string (s : string) : string := rev_string_acc s EmptyString.

Definition newline : ascii := ascii_of_nat 10.

Fixpoint has_newline (s : string) : bool :=
  match s with
  | EmptyString => false
  | String c r => Ascii.eqb c newline || has_newline r
  end.

(** [re.match] of [part] against the pattern of [find_value]: anything,
    then an opening bracket, one or more digits and a closing bracket, up to
    the end.  The result is groups 1 and 2 of the match, if any.  The end
    anchor stands at the end of the string or before a line feed that ends
    it; the digits of group 2 are those between the last opening bracket and
    the closing one; the dot matches no line feed.  The string is read from
    its end. *)
Definition match_index (part : string) : option (string * string) :=
  let r := rev_string part in
  let r := match r with
           | String c (String "]"%char _ as t) =>
               if Ascii.eqb c newline then t else r
           | _ => r
           end in
  match r with
  | String "]"%char t =>
      let (ds, rest) := span_digits t in
      match rest with
      | String "["%char n =>
          if is_empty ds || has_newline n then None
          else Some (rev_string n, rev_string ds)
      | _ => None
      end
  | _ => None
  end.

(** [needle in hay] on two strings: [needle] occurs in [hay]. *)
Fixpoint is_prefix (p s : string) : bool :=
  match p, s with
  | EmptyString, _ => true
  | String a p', String b s' => Ascii.eqb a b && is_prefix p' s'
  | String _ _, EmptyString => false
  end.

Fixpoint occurs (needle hay : string) : bool :=
  is_prefix needle hay
  || match hay with
     | EmptyString => false
     | String _ r => occurs needle r
     end.

(** [name in obj] *)
Definition py_contains (name : string) (obj : value) : result bool :=
  match obj with
  | VDict d => Ok (has_key name d)
  | VList l => Ok (existsb (py_eq (VStr name)) l)
  | VStr s => Ok (occurs name s)
  | VNone | VBool _ | VInt _ => Raise TypeError
  end.

(** [obj[name]] for a string [name] *)
Definition getitem (obj : value) (name : string) : result value :=
  match obj with
  | VDict d =>
      match lookup name d with
      | Some v => Ok v
      | None => Raise KeyError
      end
  | _ => Raise TypeError
  end.

(** [obj[i]] for a non-negative integer [i]; a dictionary has no integer
    key.  [None] stands for any exception. *)
Definition getitem_int (obj : value) (i : Z) : option value :=
  match obj with
  | VList l => nth_error l (Z.to_nat i)
  | VStr s =>
      match String.get (Z.to_nat i) s with
      | Some c => Some (VStr (String c EmptyString))
      | None => None
      end
  | _ => None
  end.

(** The body of the loop of [find_value], over the remaining parts. *)
Fixpoint find_parts (parts : list string) (obj : value) : result value :=
  match parts with
  | [] => Ok obj
  | part :: rest =>
      let (name, index) :=
        match match_index part with
        | Some (n, i) => (n, Some i)
        | None => (part, None)
        end in
      (present <- py_contains name obj ;;
       if negb present then Ok VNone
       else
         obj <- getitem obj name ;;
         match index with
         | None => find_parts rest obj
         | Some i =>
             match getitem_int obj (int i) with
             | Some obj => find_parts rest obj
             | None => Ok VNone
             end
         end)%result
  end.

(** [find_value(name, obj)]; the result [None] is [Ok VNone]. *)
Definition find_value (name : string) (obj : value) : result value :=
  find_parts (split_dot name) obj.

(** ** VerificationSubsystem *)

(** [for x in v]: the items the loop visits. *)
Definition py_iter (v : value) : result (list value) :=
  match v with
  | VDict d => Ok (map (fun kv => VStr (fst kv)) d)
  | VList l => Ok l
  | VStr s => Ok (map (fun c => VStr (String c EmptyString))
                      (list_ascii_of_string s))
  | VNone | VBool _ | VInt _ => Raise TypeError
  end.

(** [find_value(key, obj)] for any value [key]: only a string has
    [split]. *)
Definition find_value_of (key obj : value) : result value :=
  match key with
  | VStr name => find_value name obj
  | _ => Raise AttributeError
  end.

(** [obj[key]] for any value [key] of the model. *)
Definition getitem_of (obj key : value) : result value :=
  match key with
  | VStr name => getitem obj name
  | _ => Raise TypeError
  end.

(** The first loop of [StatsCheck.run]: [stats] after the events read. *)
Fixpoint last_stats (stats : value) (events : list value) : result value :=
  match events with
  | [] => Ok stats
  | event :: rest =>
      (ty <- getitem event "event_type" ;;
       if py_eq ty (VStr "stats")
       then (s <- getitem event "stats" ;; last_stats s rest)
       else last_stats stats rest)%result
  end.

(** The second loop of [StatsCheck.run], over the keys still to visit. *)
Fixpoint check_stats (config : value) (keys : list value) (stats : value)
  : result bool :=
  match keys with
  | [] => Ok true
  | key :: rest =>
      (val <- find_value_of key stats ;;
       expected <- getitem_of config key ;;
       if negb (py_eq val expected)
       then Raise (TestError
                     (Format "stats.%s: expected %s; got %s"
                             [key; expected; val]))
       else check_stats config rest stats)%result
  end.

(** [StatsCheck(config, outdir).run()]; [eve] is the decoded content of
    [eve.json], line by line, or [None] when the file cannot be opened. *)
Definition StatsCheck_run (config : value) (eve : option (list value))
  : result bool :=
  match eve with
  | None => Raise IOError
  | Some events =>
      (stats <- last_stats VNone events ;;
       keys <- py_iter config ;;
       check_stats config keys stats)%result
  end.

(** The loop of [FilterCheck.match], over the items still to visit. *)
Fixpoint match_items (items : list (string * value)) (event : value)
  : result bool :=
  match items with
  | [] => Ok true
  | (key, expected) :: rest =>
      if String.eqb key "has-key" then
        (val <- find_value_of expected event ;;
         if is_None val then Ok false else match_items rest event)%result
      else if String.eqb key "not-has-key" then
        (val <- find_value_of expected event ;;
         if negb (is_None val) then Ok false
         else match_items rest event)%result
      else
        (val <- find_value key event ;;
         if negb (py_eq val expected) then Ok false
         else match_items rest event)%result
  end.

(** [FilterCheck.match(event)] *)
Definition FilterCheck_match (config : value) (event : value)
  : result bool :=
  (m <- getitem config "match" ;;
   match m with
   | VDict items => match_items items event
   | _ => Raise AttributeError
   end)%result.

(** The counting loop of [FilterCheck.run]. *)
Fixpoint count_matches (config : value) (count : Z) (events : list value)
  : result Z :=
  match events with
  | [] => Ok count
  | event :: rest =>
      (hit <- FilterCheck_match config event ;;
       count_matches config (if hit then count + 1 else count) rest)%result
  end.

(** [FilterCheck(config, outdir).run()]; [files] gives the decoded lines of
    a file of the output directory, or [None] when it does not exist. *)
Definition FilterCheck_run (config : value)
  (files : string -> option (list value)) : result bool :=
  (named <- py_contains "filename" config ;;
   json_filename <- (if named then getitem config "filename"
                     else Ok (VStr "eve.json")) ;;
   match json_filename with
   | VStr path =>
       match files path with
       | None =>
           Raise (TestError (Format "%s does not exist" [json_filename]))
       | Some events =>
           count <- count_matches config 0 events ;;
           declared <- getitem config "count" ;;
           if py_eq (VInt count) declared then Ok true
           else
             commented <- py_contains "comment" config ;;
             if commented then
               comment <- getitem config "comment" ;;
               declared <- getitem config "count" ;;
               expected <- fmt_d declared ;;
               Raise (TestError
                        (Format "%s: expected %d, got %d"
                                [comment; expected; VInt count]))
             else
               declared <- getitem config "count" ;;
               expected <- fmt_d declared ;;
               Raise (TestError
                        (Format "expected %d matches; got %d for filter %s"
                                [expected; VInt count; config]))
       end
   | _ => Raise TypeError
   end)%result.

(** ** The test specification *)

(** One clause of [skip]. *)
Record SkipClause : Type := mkSkip {
  skip_uid : option Z;
  skip_feature : option string;
  skip_msg : option string
}.

(** The mapping [requires]; a key that is not declared is [None].  The
    versions are the text [str()] gives of the declared values. *)
Record Requires : Type := mkRequires {
  req_min_version : option string;
  req_version : option string;
  req_features : option (list string);
  req_env : option (list string);
  req_files : option (list string);
  req_script : option (list string);
  req_pcap : option bool
}.

(** [test.yaml]; a key that is not declared is [None], and a directory
    without the file has the empty specification.  The values have the
    types the runner uses them at: [args] is a list, as [default_args]
    asserts, of strings. *)
Record TestConfig : Type := mkConfig {
  cfg_setup : option (list (list (string * string)));
  cfg_skip : option (list SkipClause);
  cfg_requires : option Requires;
  cfg_command : option string;
  cfg_args : option (list string);
  cfg_count : option Z;
  cfg_exit_code : option Z;
  cfg_pcap : option string;
  cfg_checks : option (list (list (string * value)));
  cfg_pre_check : option string
}.

Definition empty_requires : Requires :=
  mkRequires None None None None None None None.

Definition empty_config : TestConfig :=
  mkConfig None None None None None None None None None None.

(** [not requires]: the mapping declares nothing. *)
Definition requires_is_empty (r : Requires) : bool :=
  match req_min_version r, req_version r, req_features r, req_env r,
        req_files r, req_script r, req_pcap r with
  | None, None, None, None, None, None, None => true
  | _, _, _, _, _, _, _ => false
  end.

(** ** The subject and the operating system *)

Record SuricataConfig : Type := mkSuricata {
  version : option SuricataVersion;
  features : list string;
  valgrind : bool
}.

Definition has_feature (sc : SuricataConfig) (feature : string) : bool :=
  existsb (String.eqb feature) (features sc).

(** What the runner starts: a command line for the shell, or an argument
    vector. *)
Inductive command : Type :=
| Shell (line : string)
| Argv (args : list string).

(** What the script asks of the system it runs on.  The calls are
    deterministic; the [k]-th run of the subject (from 0) ends with status
    [os_popen k] and leaves the files [os_output k] in the output
    directory. *)
Record OS : Type := mkOS {
  os_getuid : Z;
  os_environ : list string;
  os_path_exists : string -> bool;
  os_glob : string -> list string;
  os_call : string -> Z;
  os_check_output : value -> option string;
  os_str : value -> string;
  os_popen : nat -> command -> Z;
  os_output : nat -> string -> option (list value)
}.

Record TestRunner : Type := mkRunner {
  cwd : string;
  directory : string;
  suricata_config : SuricataConfig;
  output : string;
  topdir : string;
  config : TestConfig
}.

(** ** Paths and argument strings *)

(** [os.path.join(a, b)] *)
Definition path_join (a b : string) : string :=
  match b with
  | String "/"%char _ => b
  | _ =>
      match rev_string a with
      | EmptyString => b
      | String "/"%char _ => a ++ b
      | _ => a ++ "/" ++ b
      end
  end.

(** [os.path.basename(p)]: what follows the last slash. *)
Fixpoint basename (p : string) : string :=
  match p with
  | EmptyString => EmptyString
  | String c r =>
      if Ascii.eqb c "/" then basename r
      else if occurs "/" r then basename r
      else p
  end.

(** [re.split("\s", arg)]: the pieces between white-space characters. *)
Fixpoint split_space (s : string) : list string :=
  match s with
  | EmptyString => [EmptyString]
  | String c r =>
      if is_space c
      then EmptyString :: split_space r
      else match split_space r with
           | h :: t => String c h :: t
           | [] => [String c EmptyString]
           end
  end.

(** ** RequirementGate *)

Section Runner.

Variable os : OS.

(** [TestRunner.check_skip], over the clauses still to visit. *)
Fixpoint check_skip_clauses (sc : SuricataConfig) (clauses : list SkipClause)
  : result unit :=
  match clauses with
  | [] => Ok tt
  | skip :: rest =>
      let msg_or (default : message) : message :=
        match skip_msg skip with
        | Some msg => Text (VStr msg)
        | None => default
        end in
      (_ <- match skip_uid skip with
            | Some uid =>
                if os_getuid os =? uid
                then Raise (UnsatisfiedRequirementError
                              (msg_or (Format "not for uid %d" [VInt uid])))
                else Ok tt
            | None => Ok tt
            end ;;
       _ <- match skip_feature skip with
            | Some feature =>
                if has_feature sc feature
                then Raise (UnsatisfiedRequirementError
                              (msg_or (Format "not for feature %s"
                                              [VStr feature])))
                else Ok tt
            | None => Ok tt
            end ;;
       check_skip_clauses sc rest)%result
  end.

Definition check_skip (t : TestRunner) : result unit :=
  match cfg_skip (config t) with
  | None => Ok tt
  | Some clauses => check_skip_clauses (suricata_config t) clauses
  end.

(** A loop that raises at the first item that fails a test. *)
Fixpoint require_all {A : Type} (ok : A -> bool) (err : A -> exn)
  (items : list A) : result unit :=
  match items with
  | [] => Ok tt
  | x :: rest => if ok x then require_all ok err rest else Raise (err x)
  end.

Definition when_declared {A : Type} (o : option A) (k : A -> result unit)
  : result unit :=
  match o with
  | Some a => k a
  | None => Ok tt
  end.

(** The files [*.pcap] and [*.pcapng] of the test directory. *)
Definition pcaps_found (t : TestRunner) : list string :=
  (os_glob os (path_join (directory t) "*.pcap")
   ++ os_glob os (path_join (directory t) "*.pcapng"))%list.

(** [TestRunner.check_requires]; it returns [True] or [None]. *)
Definition check_requires (t : TestRunner) : result (option bool) :=
  let sc := suricata_config t in
  let proceed (requires : Requires) : result (option bool) :=
    (_ <- when_declared (req_min_version requires) (fun text =>
            match version sc, parse_suricata_version text with
            | Some suri_version, Some min_version =>
                if negb (version_gte suri_version min_version)
                then Raise (UnsatisfiedRequirementError
                              (Format "requires at least version %s"
                                      [VStr text]))
                else Ok tt
            | _, _ => Raise AttributeError
            end) ;;
     _ <- when_declared (req_version requires) (fun text =>
            match version sc, parse_suricata_version text with
            | Some suri_version, Some requires_version =>
                if negb (version_equal suri_version requires_version)
                then Raise (UnsatisfiedRequirementError
                              (Format "only for version %s" [VStr text]))
                else Ok tt
            | _, _ => Raise AttributeError
            end) ;;
     _ <- when_declared (req_features requires)
            (require_all (has_feature sc)
               (fun feature => UnsatisfiedRequirementError
                  (Format "requires feature %s" [VStr feature]))) ;;
     _ <- when_declared (req_env requires)
            (require_all (fun env => existsb (String.eqb env) (os_environ os))
               (fun env => UnsatisfiedRequirementError
                  (Format "requires env var %s" [VStr env]))) ;;
     _ <- when_declared (req_files requires)
            (require_all (os_path_exists os)
               (fun filename => UnsatisfiedRequirementError
                  (Format "requires file %s" [VStr filename]))) ;;
     _ <- when_declared (req_script requires)
            (require_all (fun script => os_call os script =? 0)
               (fun _ => UnsatisfiedRequirementError
                  (Text (VStr "requires script returned false")))) ;;
     match cfg_command (config t) with
     | Some _ => Ok None
     | None =>
         let pcap_required :=
           match req_pcap requires with
           | Some b => b
           | None => true
           end in
         if pcap_required
            && match cfg_pcap (config t) with Some _ => false | None => true end
            && match pcaps_found t with [] => true | _ => false end
         then Raise (UnsatisfiedRequirementError
                       (Text (VStr "No pcap file found")))
         else Ok None
     end)%result in
  match cfg_requires (config t) with
  | Some requires =>
      if requires_is_empty requires then Ok (Some true) else proceed requires
  | None => proceed empty_requires
  end.

(** ** ExecutionCoordinator *)

(** What a run does to the world, in order: what it prints, the output
    directory made anew, a script of [setup], the command line written to
    [cmdline], the subject spawned, [check] entered after the [k]-th run,
    the [pre-check] command and the script [check.sh] run.  The questions
    [check_requires] asks of the system, the scripts of [requires] among
    them, are answered by the [OS] and are not effects of the trace. *)
Inductive effect : Type :=
| Print (m : message)
| CleanOutput
| Setup (script : string)
| WriteCmdline (c : command)
| Popen (c : command)
| Verify (k : nat)
| PreCheck (line : string)
| LegacyCheck (path : string).

(** A computation of the runner: a result and the effects so far. *)
Definition M (A : Type) : Type := list effect -> result A * list effect.

Definition ret {A : Type} (a : A) : M A := fun tr => (Ok a, tr).

Definition raise {A : Type} (e : exn) : M A := fun tr => (Raise e, tr).

Definition lift {A : Type} (r : result A) : M A := fun tr => (r, tr).

Definition emit (e : effect) : M unit := fun tr => (Ok tt, (tr ++ [e])%list).

Definition mbind {A B : Type} (m : M A) (k : A -> M B) : M B :=
  fun tr =>
    match m tr with
    | (Ok a, tr') => k a tr'
    | (Raise e, tr') => (Raise e, tr')
    end.

Declare Scope run_scope.
Delimit Scope run_scope with run.
Notation "x <- m ;; k" := (mbind m (fun x => k))
  (at level 61, m at next level, right associativity) : run_scope.
Notation "m ;; k" := (mbind m (fun _ => k))
  (at level 61, right associativity) : run_scope.

(** [subprocess.check_call(script, shell=True, cwd=self.output)] *)
Definition check_call (script : string) : M unit :=
  (emit (Setup script) ;;
   if os_call os script =? 0 then ret tt else raise CalledProcessError)%run.

(** [TestRunner.setup]: the inner loop, over the commands of one step. *)
Fixpoint setup_step (commands : list (string * string)) : M unit :=
  match commands with
  | [] => ret tt
  | (command, script) :: rest =>
      ((if String.eqb command "script" then check_call script else ret tt) ;;
       setup_step rest)%run
  end.

Fixpoint setup_steps (steps : list (list (string * string))) : M unit :=
  match steps with
  | [] => ret tt
  | step :: rest => (setup_step step ;; setup_steps rest)%run
  end.

Definition setup (t : TestRunner) : M unit :=
  match cfg_setup (config t) with
  | Some steps => setup_steps steps
  | None => ret tt
  end.

(** [ShellCheck(config).run()] *)
Definition ShellCheck_run (config : value) : result bool :=
  (args <- getitem config "args" ;;
   match os_check_output os args with
   | None => Raise (TestError OfProcessError)
   | Some out =>
       expecting <- py_contains "expect" config ;;
       if expecting then
         expect <- getitem config "expect" ;;
         Ok (String.eqb (os_str os expect) (strip out))
       else Ok true
   end)%result.

(** The loop [for key in check] of [TestRunner.check], in the [k]-th run. *)
Fixpoint check_keys (k : nat) (check : list (string * value)) : result unit :=
  match check with
  | [] => Ok tt
  | (key, conf) :: rest =>
      (_ <- (if String.eqb key "filter" then
               passed <- FilterCheck_run conf (os_output os k) ;;
               if negb passed
               then Raise (TestError
                             (Format "filter did not match: %s" [conf]))
               else Ok tt
             else if String.eqb key "shell" then
               passed <- ShellCheck_run conf ;;
               if negb passed
               then Raise (TestError
                             (Format "shell output did not match: %s" [conf]))
               else Ok tt
             else if String.eqb key "stats" then
               passed <- StatsCheck_run conf (os_output os k "eve.json") ;;
               if negb passed
               then Raise (TestError (Text (VStr "stats check did not pass")))
               else Ok tt
             else Raise (TestError
                           (Format "Unknown check type: %s" [VStr key]))) ;;
       check_keys k rest)%result
  end.

Fixpoint check_all (k : nat) (checks : list (list (string * value)))
  : result unit :=
  match checks with
  | [] => Ok tt
  | check :: rest => (_ <- check_keys k check ;; check_all k rest)%result
  end.

(** [TestRunner.check], after the [k]-th run. *)
Definition check (t : TestRunner) (k : nat) : M bool :=
  (emit (Verify k) ;;
   (match cfg_pre_check (config t) with
    | Some line => emit (PreCheck line)
    | None => ret tt
    end) ;;
   lift (match cfg_checks (config t) with
         | Some checks => check_all k checks
         | None => Ok tt
         end) ;;
   let script := path_join (directory t) "check.sh" in
   if negb (os_path_exists os script) then ret true
   else
     emit (LegacyCheck script) ;;
     if negb (os_call os script =? 0)
     then emit (Print (Text (VStr "FAILED: verification failed"))) ;;
          ret false
     else ret true)%run.

(** [TestRunner.default_args] *)
Definition default_args (t : TestRunner) : result (list string) :=
  let c := config t in
  let args :=
    if valgrind (suricata_config t)
    then ["valgrind"; "-v"; "--error-exitcode=255";
          String.append "--suppressions="
            (path_join (cwd t) "qa/valgrind.suppress")]
    else [] in
  let args := (args ++ [path_join (cwd t) "src/suricata"])%list in
  let args :=
    match cfg_args c with
    | Some declared => (args ++ flat_map split_space declared)%list
    | None => args
    end in
  let args :=
    (args ++ ["--set";
              String.append "classification-file="
                (path_join (cwd t) "classification.config");
              "--set";
              String.append "reference-config-file="
                (path_join (cwd t) "reference.config");
              "--init-errors-fatal";
              "-l"; output t])%list in
  let args :=
    if occurs "ips" (basename (directory t))
    then (args ++ ["--simulate-ips"])%list
    else args in
  let args :=
    if os_path_exists os (path_join (directory t) "suricata.yaml")
    then (args ++ ["-c"; path_join (directory t) "suricata.yaml"])%list
    else (args ++ ["-c"; path_join (cwd t) "suricata.yaml"])%list in
  (args <-
     match cfg_pcap c with
     | Some pcap => Ok (args ++ ["-r"; pcap])%list
     | None =>
         let pcaps := pcaps_found t in
         if (1 <? List.length pcaps)%nat
         then Raise (TestError (Text (VStr "More than 1 pcap file found")))
         else match pcaps with
              | p :: _ => Ok (args ++ ["-r"; p])%list
              | [] => Ok args
              end
     end ;;
   match os_glob os (path_join (directory t) "*.rules") with
   | [] => Ok (args ++ ["-S"; "/dev/null"])%list
   | [r] => Ok (args ++ ["-S"; r])%list
   | _ => Raise (TestError (Text (VStr "More than 1 rule file found")))
   end)%result.

(** The loop [for _ in range(count)] of [TestRunner.run]: [n] runs are left
    and [k] were made; [total] is [count]. *)
Fixpoint run_loop (t : TestRunner) (args : command) (expected_exit_code : Z)
  (total : Z) (n k : nat) : M bool :=
  match n with
  | O =>
      (emit (Print (if 1 <? total
                    then Format "OK (%dx)" [VInt total]
                    else Text (VStr "OK"))) ;;
       ret true)%run
  | S n' =>
      (emit CleanOutput ;;
       setup t ;;
       emit (WriteCmdline args) ;;
       emit (Popen args) ;;
       let r := os_popen os k args in
       if negb (r =? expected_exit_code)
       then raise (TestError (Format "got exit code %d, expected %d"
                                [VInt r; VInt expected_exit_code]))
       else
         passed <- check t k ;;
         if negb passed then ret false
         else run_loop t args expected_exit_code total n' (S k))%run
  end.

(** [TestRunner.run] *)
Definition run (t : TestRunner) : M bool :=
  (emit (Print (Format "===> %s: " [VStr (basename (directory t))])) ;;
   lift (check_requires t) ;;
   lift (check_skip t) ;;
   args <- match cfg_command (config t) with
           | Some line => ret (Shell line)
           | None => args <- lift (default_args t) ;; ret (Argv args)
           end ;;
   let count := match cfg_count (config t) with
                | Some n => n
                | None => 1
                end in
   let expected_exit_code := match cfg_exit_code (config t) with
                             | Some n => n
                             | None => 0
                             end in
   run_loop t args expected_exit_code count (Z.to_nat count) 0%nat)%run.

(** ** SuiteDriver: how [main] reports a run *)

Inductive TestOutcome : Type :=
| Passed
| Failed (reason : option message)
| Skipped (reason : message)
| Uncaught (e : exn).

(** The [try] statement of [main] around [test_runner.run()]. *)
Definition outcome (r : result bool) : TestOutcome :=
  match r with
  | Ok true => Passed
  | Ok false => Failed None
  | Raise (UnsatisfiedRequirementError m) => Skipped m
  | Raise (TestError m) => Failed (Some m)
  | Raise e => Uncaught e
  end.

(** The outcome of a test and what running it did, from an empty trace. *)
Definition run_test (t : TestRunner) : TestOutcome * list effect :=
  let (r, tr) := run t [] in (outcome r, tr).

(** The number of times the subject was spawned. *)
Definition spawns (tr : list effect) : nat :=
  List.length (filter (fun e => match e with Popen _ => true | _ => false end)
                      tr).

End Runner.

(** ** SuricataConfig: the build information *)

(** [s.splitlines()]: the lines of [s], ended by a line feed, a carriage
    return or both; the end of the last line may be missing. *)
Fixpoint splitlines (s : string) : list string :=
  match s with
  | EmptyString => []
  | String c r =>
      if Ascii.eqb c newline then EmptyString :: splitlines r
      else if Ascii.eqb c (ascii_of_nat 13) then
        match r with
        | String c' r' =>
            if Ascii.eqb c' newline
            then EmptyString :: splitlines r'
            else EmptyString :: splitlines r
        | EmptyString => [EmptyString]
        end
      else match splitlines r with
           | h :: t => String c h :: t
           | [] => [String c EmptyString]
           end
  end.

(** [s.split()] on a decoded string: the words of [s], which white space
    separates. *)
Fixpoint words (s : string) : list string :=
  match s with
  | EmptyString => []
  | String c r =>
      if is_uspace c then words r
      else if lead_uspace r then String c EmptyString :: words r
      else match words r with
           | h :: t => String c h :: t
           | [] => [String c EmptyString]
           end
  end.

(** The loop of [SuricataConfig.load_build_info], over the lines still to
    read; [line.startswith] is [is_prefix].  Every line is decoded, and
    [None] is the [UnicodeDecodeError] of a line that cannot be. *)
Fixpoint load_features (features : list string) (lines : list string)
  : option (list string) :=
  match lines with
  | [] => Some features
  | line :: rest =>
      match decode line with
      | None => None
      | Some text =>
          if is_prefix "Features:" text
          then match decode line with
               | None => None
               | Some text' => load_features (tl (words text')) rest
               end
          else load_features features rest
      end
  end.

(** [SuricataConfig.load_build_info], on the output of [--build-info];
    the set of features is the list of its members. *)
Definition load_build_info (build_info : string) : option (list string) :=
  load_features [] (splitlines build_info).

(** The configuration [main] makes of the outputs of [-V] and
    [--build-info] and of the option [--valgrind]; [None] when
    [load_build_info] raises. *)
Definition make_suricata_config (version_output build_info : string)
  (with_valgrind : bool) : option SuricataConfig :=
  match load_build_info build_info with
  | Some loaded =>
      Some (mkSuricata (parse_suricata_version version_output) loaded
                       with_valgrind)
  | None => None
  end.

(** ** SuiteDriver: the loop of [main] *)

(** The counters of [main]. *)
Record Tally : Type := mkTally {
  passed : nat;
  failed : nat;
  skipped : nat
}.

(** The loop of [main] over the tests and what follows it: the exit status
    of the suite, or the exception that no handler catches, and the
    counters then.  [fail] is the option [--fail]. *)
Fixpoint main_loop (os : OS) (fail : bool) (tests : list TestRunner)
  (c : Tally) : result Z * Tally :=
  match tests with
  | [] => (Ok (if (0 <? failed c)%nat then 1 else 0), c)
  | t :: rest =>
      match fst (run_test os t) with
      | Passed =>
          main_loop os fail rest
            (mkTally (S (passed c)) (failed c) (skipped c))
      | Failed _ =>
          let c' := mkTally (passed c) (S (failed c)) (skipped c) in
          if fail then (Ok 1, c') else main_loop os fail rest c'
      | Skipped _ =>
          main_loop os fail rest
            (mkTally (passed c) (failed c) (S (skipped c)))
      | Uncaught e => (Raise e, c)
      end
  end.

(** ** Vocabulary of the statements *)

(** Some character of [s] is a digit. *)
Fixpoint has_digit (s : string) : bool :=
  match s with
  | EmptyString => false
  | String c r => is_digit c || has_digit r
  end.

Fixpoint all_digits (s : string) : bool :=
  match s with
  | EmptyString => true
  | String c r => is_digit c && all_digits r
  end.

(** A numeric group: one digit or more. *)
Definition number_text (s : string) : bool :=
  negb (is_empty s) && all_digits s.

(** The first character of [s] is a digit. *)
Definition lead_digit (s : string) : bool :=
  match s with
  | String c _ => is_digit c
  | EmptyString => false
  end.

(** What may follow the groups of a version: text that does not go on with
    a digit, also not after one of the [k] dots the pattern would still
    step over. *)
Fixpoint plain_suffix (k : nat) (s : string) : bool :=
  negb (lead_digit s)
  && match k, s with
     | S k', String c r =>
         if Ascii.eqb c "." then plain_suffix k' r else true
     | _, _ => true
     end.

(** [version_equal] on the versions two texts parse to. *)
Definition equal_text (a b : string) : option bool :=
  match parse_suricata_version a, parse_suricata_version b with
  | Some x, Some y => Some (version_equal x y)
  | _, _ => None
  end.

(** An event of the log that is not a snapshot of the statistics. *)
Definition is_other_event (event : value) : bool :=
  match getitem event "event_type" with
  | Ok ty => negb (py_eq ty (VStr "stats"))
  | Raise _ => false
  end.

(** The statistics of an event of type [stats]. *)
Definition stats_of (event : value) : option value :=
  match getitem event "event_type" with
  | Ok ty =>
      if py_eq ty (VStr "stats")
      then match getitem event "stats" with
           | Ok s => Some s
           | Raise _ => None
           end
      else None
  | Raise _ => None
  end.

(** An event of a log: it has a type, and its statistics if the type is
    [stats]. *)
Definition is_log_event (event : value) : bool :=
  is_other_event event
  || match stats_of event with Some _ => true | None => false end.



(** The keys of a dictionary, as a loop over it visits them. *)
Definition keys_of (items : dict) : list value :=
  map (fun kv => VStr (fst kv)) items.

(** The key of an item resolves in [stats] to a value equal to the item's
    value. *)
Definition key_passes (stats : value) (kv : string * value) : Prop :=
  exists val, find_value (fst kv) stats = Ok val /\ py_eq val (snd kv) = true.

(** A match entry holds on an event: for [has-key] the named path does
    not resolve to [None], for [not-has-key] it does, and for any other key
    the key resolves to a value equal to the declared one. *)
Definition entry_holds (event : value) (entry : string * value) : bool :=
  let (key, expected) := entry in
  if String.eqb key "has-key" then
    match find_value_of expected event with
    | Ok val => negb (is_None val)
    | Raise _ => false
    end
  else if String.eqb key "not-has-key" then
    match find_value_of expected event with
    | Ok val => is_None val
    | Raise _ => false
    end
  else
    match find_value key event with
    | Ok val => py_eq val expected
    | Raise _ => false
    end.

(** The path of a match entry resolves on an event, to a value or to
    [None]. *)
Definition entry_resolves (event : value) (entry : string * value) : bool :=
  let (key, expected) := entry in
  match (if String.eqb key "has-key" || String.eqb key "not-has-key"
         then find_value_of expected event
         else find_value key event) with
  | Ok _ => true
  | Raise _ => false
  end.

(** The number of events on which every entry holds. *)
Definition matching_events (items : dict) (events : list value) : Z :=
  Z.of_nat
    (List.length (filter (fun e => forallb (entry_holds e) items) events)).

(** The file a filter reads: the declared one, or [eve.json]. *)
Definition filter_filename (d : dict) : option string :=
  match lookup "filename" d with
  | Some (VStr path) => Some path
  | Some _ => None
  | None => Some "eve.json"
  end.

(** The failure of [FilterCheck] for a count other than the declared one,
    with the comment when one is declared. *)
Definition count_mismatch (d : dict) (declared n : Z) : exn :=
  TestError
    match lookup "comment" d with
    | Some comment =>
        Format "%s: expected %d, got %d" [comment; VInt declared; VInt n]
    | None =>
        Format "expected %d matches; got %d for filter %s"
               [VInt declared; VInt n; VDict d]
    end.

(** The line [run] prints first. *)
Definition banner (t : TestRunner) : effect :=
  Print (Format "===> %s: " [VStr (basename (directory t))]).

(** A clause of [skip] applies: its uid is that of the user, or its feature
    is one of the subject. *)
Definition clause_matches (os : OS) (sc : SuricataConfig) (skip : SkipClause)
  : bool :=
  match skip_uid skip with
  | Some uid => os_getuid os =? uid
  | None => false
  end
  || match skip_feature skip with
     | Some feature => has_feature sc feature
     | None => false
     end.

(** [m] is the message of a clause that applies: the declared one, or the
    default one of a condition of the clause that is met. *)
Definition skips_with (os : OS) (sc : SuricataConfig) (skip : SkipClause)
  (m : message) : Prop :=
  clause_matches os sc skip = true
  /\ match skip_msg skip with
     | Some msg => m = Text (VStr msg)
     | None =>
         (exists uid,
             skip_uid skip = Some uid /\ os_getuid os = uid
             /\ m = Format "not for uid %d" [VInt uid])
         \/ (exists feature,
                skip_feature skip = Some feature
                /\ has_feature sc feature = true
                /\ m = Format "not for feature %s" [VStr feature])
     end.

(** What [run] binds [args] to before its loop. *)
Definition args_of (os : OS) (t : TestRunner) : result command :=
  match cfg_command (config t) with
  | Some line => Ok (Shell line)
  | None =>
      match default_args os t with
      | Ok args => Ok (Argv args)
      | Raise e => Raise e
      end
  end.

(** The number of times [check] was entered. *)
Definition verifications (tr : list effect) : nat :=
  List.length (filter (fun e => match e with Verify _ => true | _ => false end)
                      tr).

(** *** A test directory to evaluate the runner in

    The user is root, the subject is version 4.0.3 without features, the
    test directory [/tests/t] holds the given pcap files and nothing else,
    and every process exits with status 0. *)
Definition suricata_403 : SuricataConfig :=
  mkSuricata (Some (mkVersion (Some 4) (Some 0) (Some 3))) [] false.

Definition os_root (pcaps : list string) : OS :=
  mkOS 0 []
       (fun _ => false)
       (fun pattern =>
          if String.eqb pattern "/tests/t/*.pcap" then pcaps else [])
       (fun _ => 0)
       (fun _ => Some EmptyString)
       (fun _ => EmptyString)
       (fun _ _ => 0)
       (fun _ _ => None).

Definition runner_of (c : TestConfig) : TestRunner :=
  mkRunner "/src" "/tests/t" suricata_403 "/tests/t/output" "/top" c.

(** [skip: [{uid: 0, msg: no root}]] *)
Definition skip_root : list SkipClause :=
  [mkSkip (Some 0) None (Some "no root")].

(** [requires: {features: [rust]}] *)
Definition requires_rust : Requires :=
  mkRequires None None (Some ["rust"]) None None None None.

(** *** Vocabulary of the further properties *)

(** Every level of the version is given. *)
Definition fully_specified (v : SuricataVersion) : bool :=
  match major v, minor v, patch v with
  | Some _, Some _, Some _ => true
  | _, _, _ => false
  end.

(** The decimal text of a natural number. *)
Definition show (n : nat) : string :=
  DecimalString.NilEmpty.string_of_uint (Nat.to_uint n).

(** The character [x] occurs in [s]. *)
Fixpoint has_char (x : ascii) (s : string) : bool :=
  match s with
  | EmptyString => false
  | String c r => Ascii.eqb c x || has_char x r
  end.

(** [match_index], with its distinctions of characters written as tests;
    the two are equal, see [match_index_alt_eq]. *)
Definition match_index_alt (part : string) : option (string * string) :=
  let r := rev_string part in
  let r := match r with
           | String c (String c' _ as t) =>
               if Ascii.eqb c' "]" && Ascii.eqb c newline then t else r
           | _ => r
           end in
  match r with
  | String c t =>
      if Ascii.eqb c "]" then
        let (ds, rest) := span_digits t in
        match rest with
        | String c' n =>
            if Ascii.eqb c' "[" then
              if is_empty ds || has_newline n then None
              else Some (rev_string n, rev_string ds)
            else None
        | EmptyString => None
        end
      else None
  | EmptyString => None
  end.

(** The files [*.rules] of the test directory. *)
Definition rules_found (os : OS) (t : TestRunner) : list string :=
  os_glob os (path_join (directory t) "*.rules").

(** The arguments [default_args] passes for the input: the declared pcap
    file, else the one found, else none. *)
Definition input_args (os : OS) (t : TestRunner) : list string :=
  match cfg_pcap (config t) with
  | Some pcap => ["-r"; pcap]
  | None =>
      match pcaps_found os t with
      | p :: _ => ["-r"; p]
      | [] => []
      end
  end.

(** The rule file [default_args] passes: the one found, else the null
    device. *)
Definition rule_arg (os : OS) (t : TestRunner) : string :=
  match rules_found os t with
  | [r] => r
  | _ => "/dev/null"
  end.

(** An exception other than the one that reports a test skipped. *)
Definition plain_exn (e : exn) : Prop :=
  match e with
  | UnsatisfiedRequirementError _ => False
  | _ => True
  end.

(** The scripts [setup] runs, in order. *)
Definition setup_scripts (steps : list (list (string * string)))
  : list string :=
  flat_map (fun step =>
              map snd (filter (fun cs => String.eqb (fst cs) "script") step))
           steps.

(** An effect of [setup]. *)
Definition is_setup (e : effect) : bool :=
  match e with Setup _ => true | _ => false end.

(** The number of runs [run] makes when none fails. *)
Definition repetitions (t : TestRunner) : nat :=
  Z.to_nat (match cfg_count (config t) with Some n => n | None => 1 end).

(** The exit status [run] expects of the subject. *)
Definition expected_exit_code (t : TestRunner) : Z :=
  match cfg_exit_code (config t) with Some n => n | None => 0 end.

(** The scripts that run when [scripts] are started in order and a script
    that fails ends the sequence. *)
Fixpoint ran_scripts (os : OS) (scripts : list string) : list string :=
  match scripts with
  | [] => []
  | s :: rest =>
      s :: (if os_call os s =? 0 then ran_scripts os rest else [])
  end.

(** Every script exits with status 0. *)
Definition scripts_succeed (os : OS) (scripts : list string) : bool :=
  forallb (fun s => os_call os s =? 0) scripts.

(** The steps of [setup] that are declared. *)
Definition declared_setup (t : TestRunner) : list (list (string * string)) :=
  match cfg_setup (config t) with Some steps => steps | None => [] end.

(** The outcomes of the tests of a suite, in order. *)
Definition outcomes (os : OS) (tests : list TestRunner) : list TestOutcome :=
  map (fun t => fst (run_test os t)) tests.

Definition is_passed (o : TestOutcome) : bool :=
  match o with Passed => true | _ => false end.

Definition is_failed (o : TestOutcome) : bool :=
  match o with Failed _ => true | _ => false end.

Definition is_skipped (o : TestOutcome) : bool :=
  match o with Skipped _ => true | _ => false end.

Definition is_uncaught (o : TestOutcome) : bool :=
  match o with Uncaught _ => true | _ => false end.

(** The number of outcomes of a kind. *)
Definition count_of (kind : TestOutcome -> bool) (l : list TestOutcome)
  : nat :=
  List.length (filter kind l).

(** The counters before the first test. *)
Definition no_tally : Tally := mkTally 0 0 0.

(** The text of lines, each ended by a line feed. *)
Fixpoint unlines (lines : list string) : string :=
  match lines with
  | [] => EmptyString
  | l :: rest => l ++ String newline (unlines rest)
  end.

(** The words joined by single spaces. *)
Fixpoint join_words (ws : list string) : string :=
  match ws with
  | [] => EmptyString
  | [w] => w
  | w :: rest => w ++ String " " (join_words rest)
  end.

(** Some character of [s] is white space of a decoded string. *)
Fixpoint has_space (s : string) : bool :=
  match s with
  | EmptyString => false
  | String c r => is_uspace c || has_space r
  end.

(** A word: not empty, of ASCII characters, without white space. *)
Definition clean_word (w : string) : bool :=
  negb (is_empty w) && all_ascii w && negb (has_space w).

(** An effect that makes the output directory anew. *)
Definition is_clean_output (e : effect) : bool :=
  match e with CleanOutput => true | _ => false end.

(** A line: without line feed and carriage return. *)
Definition one_line (l : string) : bool :=
  negb (has_char newline l) && negb (has_char (ascii_of_nat 13) l).

(** * Properties *)

(** ** VersionModel *)

Lemma opt_eqb_eq (a b : option Z) : opt_eqb a b = true <-> a = b.
Proof.
  destruct a as [x|], b as [y|]; simpl; split; intro H;
    try discriminate; try reflexivity.
  - apply Z.eqb_eq in H. now subst.
  - injection H as ->. apply Z.eqb_refl.
Qed.

(** C3.  [version_equal] holds exactly when the majors are equal and, at
    the minor and at the patch level separately, the two numbers are equal
    whenever both sides give one; the seven comparisons the specification
    lists come out as it says. *)
Theorem version_equal_spec :
  (forall a b : SuricataVersion,
      version_equal a b = true <->
      major a = major b
      /\ (forall x y, minor a = Some x -> minor b = Some y -> x = y)
      /\ (forall x y, patch a = Some x -> patch b = Some y -> x = y))
  /\ equal_text "4" "4.0.3" = Some true
  /\ equal_text "4.0" "4.0.3" = Some true
  /\ equal_text "4.0.3" "4.0.3" = Some true
  /\ equal_text "4.0.3" "4" = Some true
  /\ equal_text "3" "4.0.3" = Some false
  /\ equal_text "4.0" "4.1.3" = Some false
  /\ equal_text "4.0.2" "4.0.3" = Some false.
Proof.
  split; [| repeat split; reflexivity].
  intros [ma mi pa] [mb mj pb]; unfold version_equal; simpl.
  destruct (opt_eqb ma mb) eqn:Emaj; simpl.
  - apply opt_eqb_eq in Emaj; subst mb.
    destruct mi as [x|], mj as [y|], pa as [u|], pb as [v|]; simpl;
      repeat match goal with
             | |- context [?p =? ?q] =>
                 destruct (Z.eqb_spec p q); simpl
             end;
      split; try discriminate; try (intros _; repeat split; congruence);
      intros (_ & Hmi & Hpa);
      try (exfalso; eauto; fail); reflexivity.
  - split; [discriminate|]. intros (H & _).
    apply opt_eqb_eq in H. congruence.
Qed.

(** C7.  [version_equal] is symmetric. *)
Theorem version_equal_sym (a b : SuricataVersion) :
  version_equal a b = version_equal b a.
Proof.
  destruct a as [ma mi pa], b as [mb mj pb]; unfold version_equal; simpl.
  destruct ma as [x|], mb as [y|], mi as [u|], mj as [v|],
           pa as [p|], pb as [q|]; simpl;
    rewrite ?(Z.eqb_sym y x), ?(Z.eqb_sym v u), ?(Z.eqb_sym q p);
    reflexivity.
Qed.

(** *** Parsing *)

Lemma digit_not_space (c : ascii) : is_digit c = true -> is_space c = false.
Proof.
  unfold is_digit, is_space. set (n := N_of_ascii c). intro H.
  apply andb_true_iff in H as [H1 H2].
  apply N.leb_le in H1. apply N.leb_le in H2.
  apply orb_false_iff; split.
  - apply N.eqb_neq. lia.
  - apply andb_false_iff. right. apply N.leb_gt. lia.
Qed.

Lemma search_no_digit (s : string) :
  has_digit s = false -> search_version s = None.
Proof.
  induction s as [|c r IH]; simpl; [reflexivity|].
  intro H. apply orb_false_iff in H as [Hc Hr]. rewrite Hc. auto.
Qed.

Lemma search_skips (pre s : string) :
  has_digit pre = false -> lead_digit s = true ->
  search_version (pre ++ s) = Some (match_version_here s).
Proof.
  intros Hpre Hs. induction pre as [|c r IH]; simpl in *.
  - destruct s as [|c r]; simpl in *; [discriminate|]. now rewrite Hs.
  - apply orb_false_iff in Hpre as [Hc Hr]. rewrite Hc. auto.
Qed.

Lemma has_digit_lstrip (s : string) :
  has_digit s = false -> has_digit (lstrip s) = false.
Proof.
  induction s as [|c r IH]; simpl; [reflexivity|].
  intro H. destruct (is_space c); [|exact H].
  apply orb_false_iff in H as [_ Hr]. auto.
Qed.

Lemma has_digit_rstrip (s : string) :
  has_digit s = false -> has_digit (rstrip s) = false.
Proof.
  induction s as [|c r IH]; simpl; [reflexivity|].
  intro H. apply orb_false_iff in H as [Hc Hr].
  destruct (is_space c && is_empty (rstrip r)); simpl; [reflexivity|].
  rewrite Hc. auto.
Qed.

Lemma lstrip_app (pre s : string) :
  has_digit pre = false -> lead_digit s = true ->
  lstrip (pre ++ s) = lstrip pre ++ s.
Proof.
  intros Hpre Hs. induction pre as [|c r IH]; simpl in *.
  - destruct s as [|c r]; simpl in *; [discriminate|].
    now rewrite (digit_not_space c Hs).
  - apply orb_false_iff in Hpre as [Hc Hr].
    destruct (is_space c); [auto | reflexivity].
Qed.

Lemma rstrip_lead_digit (s : string) :
  lead_digit s = true -> exists c r, rstrip s = String c r.
Proof.
  destruct s as [|c r]; simpl; [discriminate|]. intro H.
  rewrite (digit_not_space c H). simpl. eauto.
Qed.

Lemma rstrip_app (a s : string) :
  is_empty (rstrip s) = false -> rstrip (a ++ s) = a ++ rstrip s.
Proof.
  intro H. induction a as [|c r IH]; simpl; [reflexivity|].
  rewrite IH. destruct r; simpl.
  - rewrite H, andb_false_r. reflexivity.
  - rewrite andb_false_r. reflexivity.
Qed.

Lemma rstrip_digits (d s : string) :
  all_digits d = true -> rstrip (d ++ s) = d ++ rstrip s.
Proof.
  induction d as [|c r IH]; simpl; [reflexivity|].
  intro H. apply andb_true_iff in H as [Hc Hr].
  rewrite (digit_not_space c Hc), IH by assumption. reflexivity.
Qed.

Lemma rstrip_dot (s : string) : rstrip ("." ++ s) = "." ++ rstrip s.
Proof. reflexivity. Qed.

Lemma plain_suffix_rstrip (k : nat) (s : string) :
  plain_suffix k s = true -> plain_suffix k (rstrip s) = true.
Proof.
  revert k. induction s as [|c r IH]; intros k H; [exact H|].
  simpl rstrip.
  destruct (is_space c && is_empty (rstrip r)); [now destruct k|].
  destruct k as [|k]; simpl in *; [exact H|].
  apply andb_true_iff in H as [H1 H2]. rewrite H1. simpl.
  destruct (Ascii.eqb c "."); auto.
Qed.

Lemma plain_suffix_lead (k : nat) (s : string) :
  plain_suffix k s = true -> lead_digit s = false.
Proof.
  destruct k; simpl; intro H; apply andb_true_iff in H as [H _];
    now apply negb_true_iff in H.
Qed.

Lemma span_digits_app (d s : string) :
  all_digits d = true -> lead_digit s = false ->
  span_digits (d ++ s) = (d, s).
Proof.
  intros Hd Hs. induction d as [|c r IH]; simpl in *.
  - destruct s as [|c r]; simpl in *; [reflexivity|]. now rewrite Hs.
  - apply andb_true_iff in Hd as [Hc Hr]. rewrite Hc, IH by assumption.
    reflexivity.
Qed.

Lemma opt_digits_none (s : string) :
  lead_digit s = false -> opt_digits s = (None, s).
Proof.
  intro H. unfold opt_digits.
  pose proof (span_digits_app "" s eq_refl H) as E. simpl in E.
  rewrite E. reflexivity.
Qed.

Lemma opt_digits_some (d s : string) :
  number_text d = true -> lead_digit s = false ->
  opt_digits (d ++ s) = (Some d, s).
Proof.
  intros Hd Hs. apply andb_true_iff in Hd as [Hne Hd].
  unfold opt_digits. rewrite span_digits_app by assumption.
  destruct d; [discriminate | reflexivity].
Qed.

Lemma number_text_lead (d s : string) :
  number_text d = true -> lead_digit (d ++ s) = true.
Proof.
  intro H. apply andb_true_iff in H as [Hne Hd].
  destruct d as [|c r]; [discriminate|]. simpl in *.
  now apply andb_true_iff in Hd as [Hc _].
Qed.

(** After the groups: no further group is found behind [k] optional dots. *)
Lemma no_group_after (k : nat) (s : string) :
  plain_suffix (S k) s = true ->
  opt_digits (opt_dot s) = (None, opt_dot s)
  /\ plain_suffix k (opt_dot s) = true.
Proof.
  intro H. assert (Hl := plain_suffix_lead _ _ H).
  destruct s as [|c r]; simpl in *.
  - split; [reflexivity | now destruct k].
  - rewrite Hl in H. simpl in H. destruct (Ascii.eqb c ".") eqn:Edot.
    + split; [|exact H]. apply opt_digits_none.
      exact (plain_suffix_lead _ _ H).
    + split; [now apply opt_digits_none|].
      destruct k; simpl; rewrite Hl; simpl; [reflexivity|].
      now rewrite Edot.
Qed.

Lemma parse_at_digit (pre s : string) :
  has_digit pre = false -> lead_digit s = true ->
  parse_suricata_version (pre ++ s)
  = Some (version_of_groups (match_version_here (rstrip s))).
Proof.
  intros Hpre Hs. unfold parse_suricata_version, strip.
  destruct (rstrip_lead_digit s Hs) as (c & r & Er).
  assert (Hl : lead_digit (rstrip s) = true).
  { destruct s as [|c' r']; [discriminate|]. simpl in Hs, Er |- *.
    rewrite (digit_not_space c' Hs) in *. simpl. exact Hs. }
  rewrite lstrip_app, rstrip_app by (assumption || now rewrite Er).
  rewrite search_skips by (auto using has_digit_lstrip). reflexivity.
Qed.

Lemma groups_one (g1 suf : string) :
  number_text g1 = true -> plain_suffix 2 suf = true ->
  match_version_here (g1 ++ suf) = (g1, None, None).
Proof.
  intros H1 Hs. unfold match_version_here.
  pose proof H1 as H1'. apply andb_true_iff in H1' as [_ Hd].
  rewrite span_digits_app by eauto using plain_suffix_lead.
  destruct (no_group_after 1 suf Hs) as [E1 Hs1]. rewrite E1.
  destruct (no_group_after 0 _ Hs1) as [E2 _]. rewrite E2. reflexivity.
Qed.

Lemma groups_two (g1 g2 suf : string) :
  number_text g1 = true -> number_text g2 = true ->
  plain_suffix 1 suf = true ->
  match_version_here (g1 ++ "." ++ g2 ++ suf) = (g1, Some g2, None).
Proof.
  intros H1 H2 Hs. unfold match_version_here.
  pose proof H1 as H1'. apply andb_true_iff in H1' as [_ Hd].
  rewrite span_digits_app by (assumption || reflexivity).
  change (opt_dot ("." ++ g2 ++ suf)) with (g2 ++ suf).
  rewrite opt_digits_some by eauto using plain_suffix_lead.
  destruct (no_group_after 0 suf Hs) as [E _]. rewrite E. reflexivity.
Qed.

Lemma groups_three (g1 g2 g3 suf : string) :
  number_text g1 = true -> number_text g2 = true ->
  number_text g3 = true -> plain_suffix 0 suf = true ->
  match_version_here (g1 ++ "." ++ g2 ++ "." ++ g3 ++ suf)
  = (g1, Some g2, Some g3).
Proof.
  intros H1 H2 H3 Hs. unfold match_version_here.
  pose proof H1 as H1'. apply andb_true_iff in H1' as [_ Hd].
  rewrite span_digits_app by (assumption || reflexivity).
  change (opt_dot ("." ++ g2 ++ "." ++ g3 ++ suf))
    with (g2 ++ "." ++ g3 ++ suf).
  rewrite opt_digits_some by (assumption || reflexivity).
  change (opt_dot ("." ++ g3 ++ suf)) with (g3 ++ suf).
  rewrite opt_digits_some by eauto using plain_suffix_lead.
  reflexivity.
Qed.

Lemma number_text_digits (g : string) :
  number_text g = true -> all_digits g = true.
Proof. intro H. now apply andb_true_iff in H as [_ H]. Qed.

(** C4.  A text without a digit parses to no version.  A text whose first
    digits form one, two or three groups separated by single dots, after
    any text without a digit and before any text that does not go on with a
    digit, parses to the numbers of these groups in order, a missing group
    being [None]; so do the two texts the specification gives. *)
Theorem parse_suricata_version_groups :
  (forall s, has_digit s = false -> parse_suricata_version s = None)
  /\ (forall pre g1 suf,
         has_digit pre = false -> number_text g1 = true ->
         plain_suffix 2 suf = true ->
         parse_suricata_version (pre ++ g1 ++ suf)
         = Some (mkVersion (Some (int g1)) None None))
  /\ (forall pre g1 g2 suf,
         has_digit pre = false ->
         number_text g1 = true -> number_text g2 = true ->
         plain_suffix 1 suf = true ->
         parse_suricata_version (pre ++ g1 ++ "." ++ g2 ++ suf)
         = Some (mkVersion (Some (int g1)) (Some (int g2)) None))
  /\ (forall pre g1 g2 g3 suf,
         has_digit pre = false ->
         number_text g1 = true -> number_text g2 = true ->
         number_text g3 = true ->
         plain_suffix 0 suf = true ->
         parse_suricata_version (pre ++ g1 ++ "." ++ g2 ++ "." ++ g3 ++ suf)
         = Some (mkVersion (Some (int g1)) (Some (int g2)) (Some (int g3))))
  /\ parse_suricata_version "4.1.0-dev"
     = Some (mkVersion (Some 4) (Some 1) (Some 0))
  /\ parse_suricata_version "4" = Some (mkVersion (Some 4) None None).
Proof.
  repeat split; try reflexivity.
  - intros s H. unfold parse_suricata_version, strip.
    now rewrite search_no_digit
      by auto using has_digit_rstrip, has_digit_lstrip.
  - intros pre g1 suf Hpre H1 Hs.
    rewrite parse_at_digit by auto using number_text_lead.
    rewrite rstrip_digits by auto using number_text_digits.
    rewrite groups_one by auto using plain_suffix_rstrip. reflexivity.
  - intros pre g1 g2 suf Hpre H1 H2 Hs.
    rewrite parse_at_digit by auto using number_text_lead.
    rewrite rstrip_digits, rstrip_dot, rstrip_digits
      by auto using number_text_digits.
    rewrite groups_two by auto using plain_suffix_rstrip. reflexivity.
  - intros pre g1 g2 g3 suf Hpre H1 H2 H3 Hs.
    rewrite parse_at_digit by auto using number_text_lead.
    rewrite rstrip_digits, rstrip_dot, rstrip_digits, rstrip_dot,
      rstrip_digits by auto using number_text_digits.
    rewrite groups_three by auto using plain_suffix_rstrip. reflexivity.
Qed.

(** The theorem at the banner the subject prints for [-V]. *)
Lemma parse_suricata_version_groups_witness :
  parse_suricata_version "This is Suricata version 4.0.3 RELEASE"
  = Some (mkVersion (Some 4) (Some 0) (Some 3)).
Proof.
  exact (proj1 (proj2 (proj2 (proj2 parse_suricata_version_groups)))
           "This is Suricata version " "4" "0" "3" " RELEASE"
           eq_refl eq_refl eq_refl eq_refl eq_refl).
Defined.

(** ** FieldResolver *)

Lemma split_dot_cons (s : string) :
  exists part rest, split_dot s = part :: rest.
Proof.
  induction s as [|c r (part & rest & E)]; simpl; [eauto|].
  rewrite E. destruct (Ascii.eqb c "."); eauto.
Qed.

(** No key can be looked up in [None]. *)
Lemma find_value_None (name : string) : find_value name VNone = Raise TypeError.
Proof.
  unfold find_value. destruct (split_dot_cons name) as (part & rest & ->).
  simpl. now destruct (match_index part) as [[n i]|].
Qed.

(** The path of the specification's example resolves to the first
    recipient. *)
Lemma find_value_rcpt_to :
  find_value "smtp.rcpt_to[0]"
    (VDict [("smtp", VDict [("rcpt_to", VList [VStr "a"; VStr "b"])])])
  = Ok (VStr "a").
Proof. reflexivity. Qed.

(** A key that the mapping does not have resolves to [None], whatever
    follows in the path. *)
Lemma find_parts_missing_key (name : string) (rest : list string) (d : dict) :
  match_index name = None -> has_key name d = false ->
  find_parts (name :: rest) (VDict d) = Ok VNone.
Proof. intros Hm Hk. simpl. now rewrite Hm, Hk. Qed.

(** A path of one segment never raises on a mapping. *)
Lemma find_parts_top_level (part : string) (d : dict) :
  exists v, find_parts [part] (VDict d) = Ok v.
Proof.
  simpl. unfold has_key.
  destruct (match_index part) as [[n i]|].
  - destruct (lookup n d) as [v|]; simpl; [|eauto].
    destruct (getitem_int v (int i)); eauto.
  - destruct (lookup part d) as [v|]; simpl; eauto.
Qed.

(** An index that the sequence does not have resolves to [None]. *)
Lemma find_value_out_of_range :
  find_value "smtp.rcpt_to[2]"
    (VDict [("smtp", VDict [("rcpt_to", VList [VStr "a"; VStr "b"])])])
  = Ok VNone
  /\ find_value "smtp[0]" (VDict [("smtp", VInt 25)]) = Ok VNone.
Proof. split; reflexivity. Qed.

(** C2.  [find_value] raises when a segment of the path is looked up in a
    number: in the event with [a] bound to 1, the path [a.b] ends in a
    [TypeError], and not in [None]. *)
Theorem find_value_raises_below_scalar :
  find_value "a.b" (VDict [("a", VInt 1)]) = Raise TypeError.
Proof. reflexivity. Qed.

(** ** StatsCheck *)

Lemma last_stats_others (stats : value) (events : list value) :
  forallb is_other_event events = true -> last_stats stats events = Ok stats.
Proof.
  induction events as [|event rest IH]; simpl; [reflexivity|].
  intro H. apply andb_true_iff in H as [He Hr].
  unfold is_other_event in He.
  destruct (getitem event "event_type") as [ty|]; [|discriminate]. simpl.
  apply negb_true_iff in He. rewrite He. auto.
Qed.



(** C9.  With a key declared and no event of type [stats] in the log,
    [StatsCheck.run] ends in the [TypeError] of looking the first key up in
    [None], which is not the failure that names a key and two values. *)
Theorem StatsCheck_without_stats
  (key : string) (expected : value) (rest : dict) (events : list value) :
  forallb is_other_event events = true ->
  StatsCheck_run (VDict ((key, expected) :: rest)) (Some events)
  = Raise TypeError.
Proof.
  intro H. unfold StatsCheck_run.
  rewrite (last_stats_others VNone events H). simpl.
  now rewrite find_value_None.
Qed.

Lemma StatsCheck_without_stats_witness :
  StatsCheck_run (VDict [("decoder.pkts", VInt 3)])
    (Some [VDict [("event_type", VStr "alert")];
           VDict [("event_type", VStr "flow")]])
  = Raise TypeError.
Proof.
  apply (StatsCheck_without_stats "decoder.pkts" (VInt 3) []
           [VDict [("event_type", VStr "alert")];
            VDict [("event_type", VStr "flow")]]).
  reflexivity.
Defined.

Lemma lookup_In (k : string) (v : value) (d : dict) :
  NoDup (map fst d) -> In (k, v) d -> lookup k d = Some v.
Proof.
  induction d as [|[k' v'] d IH]; simpl; [contradiction|].
  intros Hnd [E|Hin].
  - injection E as -> ->. now rewrite String.eqb_refl.
  - inversion Hnd as [|? ? Hk Hd]; subst.
    destruct (String.eqb_spec k k') as [->|_]; [|auto].
    exfalso. apply Hk. apply (in_map fst) in Hin. exact Hin.
Qed.

Section StatsKeys.

Variables (d : dict) (stats : value).
Hypothesis distinct : NoDup (map fst d).

Lemma check_stats_pass (items : dict) :
  incl items d ->
  check_stats (VDict d) (keys_of items) stats = Ok true
  <-> Forall (key_passes stats) items.
Proof.
  intro Hin. induction items as [|[k e] items IH]; simpl.
  - split; [constructor | reflexivity].
  - assert (Hk : lookup k d = Some e)
      by (apply lookup_In; [exact distinct | apply Hin; now left]).
    assert (Hin' : incl items d) by (intros x Hx; apply Hin; now right).
    rewrite Hk. simpl.
    destruct (find_value k stats) as [val|err] eqn:Ef; simpl.
    + destruct (py_eq val e) eqn:Ee; simpl.
      * rewrite (IH Hin'). split.
        -- intro H. constructor; [exists val; auto | exact H].
        -- intro H. now inversion H.
      * split; [discriminate|]. intro H. inversion H as [|? ? (v & Hv & Hp)].
        simpl in Hv, Hp. congruence.
    + split; [discriminate|]. intro H. inversion H as [|? ? (v & Hv & Hp)].
      simpl in Hv. congruence.
Qed.


End StatsKeys.



(** ** FilterCheck *)

Lemma match_items_true (items : dict) (event : value) :
  match_items items event = Ok true
  <-> forallb (entry_holds event) items = true.
Proof.
  induction items as [|[key expected] items IH]; simpl; [tauto|].
  destruct (String.eqb key "has-key");
    [|destruct (String.eqb key "not-has-key")].
  - destruct (find_value_of expected event) as [val|]; simpl;
      [|split; discriminate].
    destruct (is_None val); simpl; [split; discriminate | exact IH].
  - destruct (find_value_of expected event) as [val|]; simpl;
      [|split; discriminate].
    destruct (is_None val); simpl; [exact IH | split; discriminate].
  - destruct (find_value key event) as [val|]; simpl;
      [|split; discriminate].
    destruct (py_eq val expected); simpl; [exact IH | split; discriminate].
Qed.

Lemma match_items_resolved (items : dict) (event : value) :
  forallb (entry_resolves event) items = true ->
  match_items items event = Ok (forallb (entry_holds event) items).
Proof.
  induction items as [|[key expected] items IH]; simpl; [reflexivity|].
  intro H. apply andb_true_iff in H as [He Hr]. specialize (IH Hr).
  destruct (String.eqb key "has-key"); simpl in He;
    [|destruct (String.eqb key "not-has-key"); simpl in He].
  - destruct (find_value_of expected event) as [val|]; [|discriminate].
    simpl. now destruct (is_None val).
  - destruct (find_value_of expected event) as [val|]; [|discriminate].
    simpl. now destruct (is_None val).
  - destruct (find_value key event) as [val|]; [|discriminate].
    simpl. now destruct (py_eq val expected).
Qed.

Lemma count_matches_resolved (d items : dict) (c : Z) (events : list value) :
  lookup "match" d = Some (VDict items) ->
  forallb (fun e => forallb (entry_resolves e) items) events = true ->
  count_matches (VDict d) c events = Ok (c + matching_events items events).
Proof.
  intros Hm. revert c.
  induction events as [|e events IH]; intros c H.
  - unfold matching_events. simpl. f_equal. lia.
  - simpl in H. apply andb_true_iff in H as [He Hr].
    simpl. unfold FilterCheck_match at 1. simpl. rewrite Hm. simpl.
    rewrite (match_items_resolved items e He). simpl.
    rewrite (IH _ Hr). f_equal. unfold matching_events. simpl.
    destruct (forallb (entry_holds e) items); simpl List.length; lia.
Qed.

(** [FilterCheck.match] holds on an event exactly when every declared
    entry holds on it.  On a log on which the paths of the entries resolve,
    [FilterCheck.run] passes exactly when the number of events that match is
    the declared count, and fails otherwise with a message of the declared
    count, the number found and the comment if there is one. *)
Theorem FilterCheck_counts_matches
  (d items : dict) (declared : Z) (path : string) (events : list value)
  (files : string -> option (list value)) :
  lookup "match" d = Some (VDict items) ->
  lookup "count" d = Some (VInt declared) ->
  filter_filename d = Some path ->
  files path = Some events ->
  forallb (fun e => forallb (entry_resolves e) items) events = true ->
  (forall event,
      FilterCheck_match (VDict d) event = Ok true
      <-> forallb (entry_holds event) items = true)
  /\ (FilterCheck_run (VDict d) files = Ok true
      <-> matching_events items events = declared)
  /\ (matching_events items events <> declared ->
      FilterCheck_run (VDict d) files
      = Raise (count_mismatch d declared (matching_events items events))).
Proof.
  intros Hm Hc Hf Hfile Hres.
  assert (Hrun : FilterCheck_run (VDict d) files
                 = if matching_events items events =? declared then Ok true
                   else Raise (count_mismatch d declared
                                 (matching_events items events))).
  { unfold FilterCheck_run, filter_filename, count_mismatch in *. simpl.
    unfold has_key.
    assert (Hj : (if match lookup "filename" d with
                     | Some _ => true
                     | None => false
                     end
                  then match lookup "filename" d with
                       | Some v => Ok v
                       | None => Raise KeyError
                       end
                  else Ok (VStr "eve.json")) = Ok (VStr path)).
    { destruct (lookup "filename" d) as [[| | |p| |]|]; try discriminate;
        now injection Hf as ->. }
    rewrite Hj. simpl. rewrite Hfile.
    rewrite (count_matches_resolved d items 0 events Hm Hres). simpl.
    rewrite Hc. simpl.
    destruct (matching_events items events =? declared); [reflexivity|].
    now destruct (lookup "comment" d). }
  split; [|split].
  - intro event. unfold FilterCheck_match. simpl. rewrite Hm. simpl.
    apply match_items_true.
  - rewrite Hrun. destruct (Z.eqb_spec (matching_events items events) declared);
      split; intro; congruence.
  - intro Hne. rewrite Hrun.
    now destruct (Z.eqb_spec (matching_events items events) declared).
Qed.

(** On the filter of the specification: two alerts of the signature among
    other events, and a declared count of 2. *)
Lemma FilterCheck_counts_matches_witness :
  FilterCheck_run
    (VDict [("count", VInt 2);
            ("match", VDict [("event_type", VStr "alert");
                             ("alert.signature_id", VInt 1000001)])])
    (fun path =>
       if String.eqb path "eve.json"
       then Some [VDict [("event_type", VStr "alert");
                         ("alert", VDict [("signature_id", VInt 1000001)])];
                  VDict [("event_type", VStr "flow")];
                  VDict [("event_type", VStr "alert");
                         ("alert", VDict [("signature_id", VInt 2)])];
                  VDict [("event_type", VStr "alert");
                         ("alert", VDict [("signature_id", VInt 1000001)])]]
       else None)
  = Ok true.
Proof.
  apply (proj2 (proj1 (proj2 (FilterCheck_counts_matches
           [("count", VInt 2);
            ("match", VDict [("event_type", VStr "alert");
                             ("alert.signature_id", VInt 1000001)])]
           [("event_type", VStr "alert");
            ("alert.signature_id", VInt 1000001)]
           2 "eve.json"
           [VDict [("event_type", VStr "alert");
                   ("alert", VDict [("signature_id", VInt 1000001)])];
            VDict [("event_type", VStr "flow")];
            VDict [("event_type", VStr "alert");
                   ("alert", VDict [("signature_id", VInt 2)])];
            VDict [("event_type", VStr "alert");
                   ("alert", VDict [("signature_id", VInt 1000001)])]]
           _ eq_refl eq_refl eq_refl eq_refl eq_refl)))).
  reflexivity.
Defined.

(** C6.  [FilterCheck.run] raises where the count of the matching events
    is the declared one: for the filter [{count: 0, match: {a.b: 1}}] and
    the log of the one event [{a: 1}], no event matches, which is the
    declared count of 0, yet the run ends in the [TypeError] of
    [find_value] looking the segment [b] up in the number 1, and not in a
    pass. *)
Theorem FilterCheck_raises_below_scalar :
  matching_events [("a.b", VInt 1)] [VDict [("a", VInt 1)]] = 0
  /\ FilterCheck_match
       (VDict [("count", VInt 0); ("match", VDict [("a.b", VInt 1)])])
       (VDict [("a", VInt 1)])
     = Raise TypeError
  /\ FilterCheck_run
       (VDict [("count", VInt 0); ("match", VDict [("a.b", VInt 1)])])
       (fun path =>
          if String.eqb path "eve.json"
          then Some [VDict [("a", VInt 1)]] else None)
     = Raise TypeError.
Proof. repeat split. Qed.

(** ** RequirementGate and ExecutionCoordinator *)

Section RunnerFacts.

Variable os : OS.

Lemma check_skip_clauses_matches (sc : SuricataConfig)
  (clauses : list SkipClause) :
  existsb (clause_matches os sc) clauses = true ->
  exists skip m,
    In skip clauses /\ skips_with os sc skip m
    /\ check_skip_clauses os sc clauses
       = Raise (UnsatisfiedRequirementError m).
Proof.
  induction clauses as [|skip rest IH]; simpl; [discriminate|].
  intro H. unfold clause_matches at 1 in H.
  assert (Hrest : existsb (clause_matches os sc) rest = true ->
                  exists s m, (skip = s \/ In s rest) /\ skips_with os sc s m
                    /\ check_skip_clauses os sc rest
                       = Raise (UnsatisfiedRequirementError m)).
  { intro Hr. destruct (IH Hr) as (s & m & Hin & Hs & E). exists s, m. auto. }
  assert (Hhere : forall m,
             skips_with os sc skip m ->
             exists s m', (skip = s \/ In s rest) /\ skips_with os sc s m'
               /\ Raise (UnsatisfiedRequirementError m)
                  = Raise (A:=unit) (UnsatisfiedRequirementError m')).
  { intros m Hm. exists skip, m. auto. }
  destruct (skip_uid skip) as [uid|] eqn:Eu;
    [destruct (Z.eqb_spec (os_getuid os) uid) as [Huid|Hne]|];
    simpl in H |- *.
  - apply Hhere. unfold skips_with, clause_matches.
    rewrite Eu, (proj2 (Z.eqb_eq _ _) Huid). split; [reflexivity|].
    destruct (skip_msg skip); [reflexivity|]. left. eauto.
  - destruct (skip_feature skip) as [feature|] eqn:Ef; simpl; [|auto].
    destruct (has_feature sc feature) eqn:Eh; simpl in H |- *; [|auto].
    apply Hhere. unfold skips_with, clause_matches. rewrite Eu, Ef, Eh.
    split; [apply orb_true_r|].
    destruct (skip_msg skip); [reflexivity|]. right. eauto.
  - destruct (skip_feature skip) as [feature|] eqn:Ef; simpl; [|auto].
    destruct (has_feature sc feature) eqn:Eh; simpl in H |- *; [|auto].
    apply Hhere. unfold skips_with, clause_matches. rewrite Eu, Ef, Eh.
    split; [reflexivity|].
    destruct (skip_msg skip); [reflexivity|]. right. eauto.
Qed.

(** What [run] does up to its loop. *)
Lemma run_unfold (t : TestRunner) :
  run os t []
  = match check_requires os t with
    | Raise e => (Raise e, [banner t])
    | Ok _ =>
        match check_skip os t with
        | Raise e => (Raise e, [banner t])
        | Ok _ =>
            match args_of os t with
            | Raise e => (Raise e, [banner t])
            | Ok args =>
                let count := match cfg_count (config t) with
                             | Some n => n
                             | None => 1
                             end in
                run_loop os t args
                  match cfg_exit_code (config t) with
                  | Some n => n
                  | None => 0
                  end
                  count (Z.to_nat count) 0%nat [banner t]
            end
        end
    end.
Proof.
  unfold run, args_of, mbind, lift, emit, ret, banner. simpl.
  destruct (check_requires os t); [|reflexivity].
  destruct (check_skip os t); [|reflexivity].
  destruct (cfg_command (config t)); [reflexivity|].
  now destruct (default_args os t).
Qed.

End RunnerFacts.

(** C1, as the code has it.  [run] evaluates [requires] before [skip]: an
    unmet requirement makes the outcome a skip with the message of that
    requirement, whatever [skip] declares; when [check_requires] returns
    and a clause of [skip] applies, the outcome is a skip with the message
    of such a clause, declared or default.  Nothing is spawned in either
    case. *)
Theorem requires_then_skip (os : OS) (t : TestRunner) :
  (forall m,
      check_requires os t = Raise (UnsatisfiedRequirementError m) ->
      run_test os t = (Skipped m, [banner t]))
  /\ (forall r clauses,
         check_requires os t = Ok r ->
         cfg_skip (config t) = Some clauses ->
         existsb (clause_matches os (suricata_config t)) clauses = true ->
         exists skip m,
           In skip clauses
           /\ skips_with os (suricata_config t) skip m
           /\ run_test os t = (Skipped m, [banner t])).
Proof.
  split.
  - intros m H. unfold run_test. rewrite run_unfold, H. reflexivity.
  - intros r clauses Hr Hs Hm.
    destruct (check_skip_clauses_matches os _ clauses Hm)
      as (skip & m & Hin & Hw & E).
    exists skip, m. repeat split; try assumption; try apply Hw.
    unfold run_test. rewrite run_unfold, Hr.
    unfold check_skip. rewrite Hs, E. reflexivity.
Qed.

(** The theorem for root and a test that skips root with its default
    message. *)
Lemma requires_then_skip_witness :
  exists skip m,
    In skip [mkSkip (Some 0) None None]
    /\ skips_with (os_root ["/tests/t/a.pcap"]) suricata_403 skip m
    /\ run_test (os_root ["/tests/t/a.pcap"])
         (runner_of (mkConfig None (Some [mkSkip (Some 0) None None])
                              None None None None None None None None))
       = (Skipped m,
          [banner (runner_of
                     (mkConfig None (Some [mkSkip (Some 0) None None])
                               None None None None None None None None))]).
Proof.
  apply (proj2 (requires_then_skip (os_root ["/tests/t/a.pcap"])
                  (runner_of
                     (mkConfig None (Some [mkSkip (Some 0) None None])
                               None None None None None None None None)))
           None [mkSkip (Some 0) None None]);
    reflexivity.
Defined.

(** C1, as stated, fails: root runs a test that skips root with the message
    [no root] and requires a feature the subject lacks.  [check_skip] alone
    would raise with the declared message, but the outcome of the run
    carries the message of the requirement. *)
Lemma skip_message_lost_to_requires :
  let os := os_root ["/tests/t/a.pcap"] in
  let t := runner_of (mkConfig None (Some skip_root) (Some requires_rust)
                               None None None None None None None) in
  existsb (clause_matches os suricata_403) skip_root = true
  /\ check_skip os t
     = Raise (UnsatisfiedRequirementError (Text (VStr "no root")))
  /\ run_test os t
     = (Skipped (Format "requires feature %s" [VStr "rust"]), [banner t])
  /\ fst (run_test os t) <> Skipped (Text (VStr "no root")).
Proof.
  repeat split; try reflexivity. discriminate.
Qed.

(** C8, as the code has it.  When the gates of [requires] and [skip] let
    the test through, a test directory with more than one pcap file and a
    specification with neither [pcap] nor [command] makes [run] raise the
    [TestError] of [default_args]: the test is reported failed, and nothing
    was spawned. *)
Theorem many_pcaps_fail_before_spawn (os : OS) (t : TestRunner)
  (r : option bool) :
  check_requires os t = Ok r ->
  check_skip os t = Ok tt ->
  cfg_pcap (config t) = None ->
  cfg_command (config t) = None ->
  (1 < List.length (pcaps_found os t))%nat ->
  run_test os t
  = (Failed (Some (Text (VStr "More than 1 pcap file found"))), [banner t])
  /\ spawns (snd (run_test os t)) = 0%nat.
Proof.
  intros Hr Hs Hp Hc Hn.
  assert (E : run_test os t
              = (Failed (Some (Text (VStr "More than 1 pcap file found"))),
                 [banner t])).
  { unfold run_test. rewrite run_unfold, Hr, Hs.
    unfold args_of, default_args. rewrite Hc, Hp.
    apply Nat.ltb_lt in Hn. rewrite Hn. reflexivity. }
  rewrite E. split; reflexivity.
Qed.

(** The theorem on a directory with two pcap files and no [test.yaml]. *)
Lemma many_pcaps_fail_before_spawn_witness :
  run_test (os_root ["/tests/t/a.pcap"; "/tests/t/b.pcap"])
    (runner_of empty_config)
  = (Failed (Some (Text (VStr "More than 1 pcap file found"))),
     [banner (runner_of empty_config)])
  /\ spawns (snd (run_test (os_root ["/tests/t/a.pcap"; "/tests/t/b.pcap"])
                    (runner_of empty_config))) = 0%nat.
Proof.
  apply (many_pcaps_fail_before_spawn
           (os_root ["/tests/t/a.pcap"; "/tests/t/b.pcap"])
           (runner_of empty_config) None);
    try reflexivity.
  simpl. lia.
Defined.

(** C8, as stated, fails: with two pcap files, neither [pcap] nor
    [command], and a required feature the subject lacks, the run is a skip
    and not a failure. *)
Lemma many_pcaps_skipped_by_requires :
  let os := os_root ["/tests/t/a.pcap"; "/tests/t/b.pcap"] in
  let t := runner_of (mkConfig None None (Some requires_rust)
                               None None None None None None None) in
  List.length (pcaps_found os t) = 2%nat
  /\ cfg_pcap (config t) = None
  /\ cfg_command (config t) = None
  /\ run_test os t
     = (Skipped (Format "requires feature %s" [VStr "rust"]), [banner t]).
Proof. repeat split. Qed.

(** C10, as the code has it.  With [count: 0], [run] spawns nothing and
    never enters [check]; when the gates of [requires] and [skip] let the
    test through and [args] is built, it prints [OK] and returns [True], so
    the test is reported passed. *)
Theorem count_zero_passes_unrun (os : OS) (t : TestRunner) :
  cfg_count (config t) = Some 0 ->
  spawns (snd (run_test os t)) = 0%nat
  /\ verifications (snd (run_test os t)) = 0%nat
  /\ (forall r args,
         check_requires os t = Ok r ->
         check_skip os t = Ok tt ->
         args_of os t = Ok args ->
         run_test os t = (Passed, [banner t; Print (Text (VStr "OK"))])).
Proof.
  intro Hc. unfold run_test. rewrite run_unfold, Hc. simpl.
  repeat split.
  - destruct (check_requires os t); [|reflexivity].
    destruct (check_skip os t); [|reflexivity].
    now destruct (args_of os t).
  - destruct (check_requires os t); [|reflexivity].
    destruct (check_skip os t); [|reflexivity].
    now destruct (args_of os t).
  - intros r args Hr Hs Ha. now rewrite Hr, Hs, Ha.
Qed.

(** The theorem on a directory with one pcap file and [count: 0]. *)
Lemma count_zero_passes_unrun_witness :
  run_test (os_root ["/tests/t/a.pcap"])
    (runner_of (mkConfig None None None None None (Some 0)
                         None None None None))
  = (Passed,
     [banner (runner_of (mkConfig None None None None None (Some 0)
                                  None None None None));
      Print (Text (VStr "OK"))]).
Proof.
  apply (proj2 (proj2 (count_zero_passes_unrun
                         (os_root ["/tests/t/a.pcap"])
                         (runner_of (mkConfig None None None None None (Some 0)
                                              None None None None))
                         eq_refl))
           None
           (Argv ["/src/src/suricata";
                  "--set"; "classification-file=/src/classification.config";
                  "--set"; "reference-config-file=/src/reference.config";
                  "--init-errors-fatal"; "-l"; "/tests/t/output";
                  "-c"; "/src/suricata.yaml";
                  "-r"; "/tests/t/a.pcap";
                  "-S"; "/dev/null"]));
    reflexivity.
Defined.

(** C10, as stated, fails: root runs a test with [count: 0] that skips
    root; the run is a skip and not a pass. *)
Lemma count_zero_skipped :
  let t := runner_of (mkConfig None (Some skip_root) None None None (Some 0)
                               None None None None) in
  cfg_count (config t) = Some 0
  /\ run_test (os_root ["/tests/t/a.pcap"]) t
     = (Skipped (Text (VStr "no root")), [banner t])
  /\ fst (run_test (os_root ["/tests/t/a.pcap"]) t) <> Passed.
Proof.
  repeat split; try reflexivity. discriminate.
Qed.

(** *** The runner on small tests *)

(** A command run twice: two spawns, [check] entered after each. *)
Example run_twice :
  let t := runner_of (mkConfig None None None (Some "true") None (Some 2)
                               None None None None) in
  run_test (os_root []) t
  = (Passed,
     [banner t;
      CleanOutput; WriteCmdline (Shell "true"); Popen (Shell "true");
      Verify 0;
      CleanOutput; WriteCmdline (Shell "true"); Popen (Shell "true");
      Verify 1;
      Print (Format "OK (%dx)" [VInt 2])]).
Proof. reflexivity. Qed.

(** A declared exit code of 1 and a subject that exits with 0. *)
Example run_wrong_exit_code :
  let t := runner_of (mkConfig None None None (Some "true") None None
                               (Some 1) None None None) in
  fst (run_test (os_root []) t)
  = Failed (Some (Format "got exit code %d, expected %d" [VInt 0; VInt 1])).
Proof. reflexivity. Qed.

(** A required minimum version above that of the subject: a skip. *)
Example run_min_version :
  let t := runner_of (mkConfig None None
                        (Some (mkRequires (Some "5.0.0") None None None
                                          None None None))
                        None None None None None None None) in
  run_test (os_root ["/tests/t/a.pcap"]) t
  = (Skipped (Format "requires at least version %s" [VStr "5.0.0"]),
     [banner t]).
Proof. reflexivity. Qed.

(** A check of a kind that does not exist. *)
Example run_unknown_check :
  let t := runner_of (mkConfig None None None (Some "true") None None None
                               None (Some [[("lua", VNone)]]) None) in
  fst (run_test (os_root []) t)
  = Failed (Some (Format "Unknown check type: %s" [VStr "lua"])).
Proof. reflexivity. Qed.

(** * Further properties of the code *)

(** ** VersionModel: [version_gte] *)

Ltac by_ltb :=
  repeat match goal with
         | |- context [?p <? ?q] => destruct (Z.ltb_spec p q); simpl
         | H : context [?p <? ?q] |- _ =>
             destruct (Z.ltb_spec p q); simpl in H
         end;
  try reflexivity; try discriminate; try lia.

(** X1.  On two versions that give every level, [version_gte] is the
    lexicographic order of the triples. *)
Theorem version_gte_lexicographic (a1 b1 c1 a2 b2 c2 : Z) :
  version_gte (mkVersion (Some a1) (Some b1) (Some c1))
              (mkVersion (Some a2) (Some b2) (Some c2)) = true
  <-> a2 < a1 \/ (a1 = a2 /\ (b2 < b1 \/ (b1 = b2 /\ c2 <= c1))).
Proof.
  unfold version_gte; simpl. split.
  - intro H. by_ltb.
  - intro H. by_ltb.
Qed.

(** X2.  [version_gte] is a total preorder on all versions, those with
    levels left out included: it is reflexive and transitive, and of two
    versions one is at least the other. *)
Theorem version_gte_total_preorder :
  (forall a, version_gte a a = true)
  /\ (forall a b, version_gte a b = true \/ version_gte b a = true)
  /\ (forall a b c,
         version_gte a b = true -> version_gte b c = true ->
         version_gte a c = true).
Proof.
  repeat split.
  - intros [[x|] [y|] [z|]]; unfold version_gte; simpl; by_ltb.
  - intros [[x|] [y|] [z|]] [[x'|] [y'|] [z'|]]; unfold version_gte; simpl;
      by_ltb; auto.
  - intros [[x|] [y|] [z|]] [[x'|] [y'|] [z'|]] [[x''|] [y''|] [z''|]];
      unfold version_gte; simpl; intros H1 H2; by_ltb.
Qed.

(** X3.  On versions that give every level, [version_equal] is equality of
    the versions, and it holds exactly when [version_gte] holds in both
    directions. *)
Theorem version_equal_full (a b : SuricataVersion) :
  fully_specified a = true -> fully_specified b = true ->
  (version_equal a b = true <-> a = b)
  /\ (version_equal a b = true
      <-> version_gte a b = true /\ version_gte b a = true).
Proof.
  destruct a as [[x|] [y|] [z|]], b as [[x'|] [y'|] [z'|]];
    try discriminate.
  intros _ _. unfold version_equal, version_gte; simpl.
  destruct (Z.eqb_spec x x'), (Z.eqb_spec y y'), (Z.eqb_spec z z'); simpl;
    (split; split; [intro H | intro H | intro H | intros [H1 H2]]);
    try discriminate; try reflexivity; try congruence;
    subst; by_ltb; try (split; by_ltb).
Qed.

Lemma version_equal_full_witness :
  version_equal (mkVersion (Some 4) (Some 0) (Some 3))
                (mkVersion (Some 4) (Some 0) (Some 3)) = true.
Proof.
  apply (proj2 (proj1 (version_equal_full
                         (mkVersion (Some 4) (Some 0) (Some 3))
                         (mkVersion (Some 4) (Some 0) (Some 3))
                         eq_refl eq_refl))).
  reflexivity.
Defined.

(** X4.  [version_equal] is reflexive but not transitive: a version that
    leaves a level out equals two versions that differ at that level. *)
Theorem version_equal_not_transitive :
  (forall a, version_equal a a = true)
  /\ ~ (forall a b c,
           version_equal a b = true -> version_equal b c = true ->
           version_equal a c = true).
Proof.
  split.
  - intros [[x|] [y|] [z|]]; unfold version_equal; simpl;
      rewrite ?Z.eqb_refl; reflexivity.
  - intro H.
    specialize (H (mkVersion (Some 4) (Some 0) None)
                  (mkVersion (Some 4) None None)
                  (mkVersion (Some 4) (Some 1) None) eq_refl eq_refl).
    discriminate.
Qed.

(** X5.  Against a required version that leaves levels out, [version_gte]
    compares the levels that are given: with the major only, a subject
    that gives its minor passes exactly when its major is not below; with
    major and minor, a subject that gives every level passes exactly when
    its major and minor are not below, in lexicographic order. *)
Theorem version_gte_partial (a1 b1 a2 b2 : Z) (c1 c2 : option Z) (z1 : Z) :
  (version_gte (mkVersion (Some a1) (Some b1) c1)
               (mkVersion (Some a2) None c2) = true
   <-> a2 <= a1)
  /\ (version_gte (mkVersion (Some a1) (Some b1) (Some z1))
                  (mkVersion (Some a2) (Some b2) None) = true
      <-> a2 < a1 \/ (a1 = a2 /\ b2 <= b1)).
Proof.
  unfold version_gte; simpl. split; split; intro H; by_ltb.
Qed.

(** ** VersionModel: [parse_suricata_version] *)

Lemma space_not_digit (c : ascii) : is_space c = true -> is_digit c = false.
Proof.
  intro H. destruct (is_digit c) eqn:E; [|reflexivity].
  rewrite (digit_not_space c E) in H. discriminate.
Qed.

Lemma has_digit_lstrip_eq (s : string) : has_digit (lstrip s) = has_digit s.
Proof.
  induction s as [|c r IH]; simpl; [reflexivity|].
  destruct (is_space c) eqn:E; [|reflexivity].
  now rewrite (space_not_digit c E).
Qed.

Lemma has_digit_rstrip_eq (s : string) : has_digit (rstrip s) = has_digit s.
Proof.
  induction s as [|c r IH]; simpl; [reflexivity|].
  destruct (is_space c) eqn:E; simpl.
  - rewrite <- IH.
    destruct (rstrip r); simpl; now rewrite (space_not_digit c E).
  - now rewrite IH.
Qed.

Lemma search_version_none (s : string) :
  search_version s = None <-> has_digit s = false.
Proof.
  induction s as [|c r IH]; simpl; [tauto|].
  destruct (is_digit c); simpl; [split; discriminate | exact IH].
Qed.

Lemma span_digits_all (s : string) : all_digits (fst (span_digits s)) = true.
Proof.
  induction s as [|c r IH]; simpl; [reflexivity|].
  destruct (is_digit c) eqn:E; [|reflexivity].
  destruct (span_digits r) as [d rest]. simpl in *. now rewrite E.
Qed.

Lemma opt_digits_all (s g : string) :
  fst (opt_digits s) = Some g -> all_digits g = true.
Proof.
  unfold opt_digits. pose proof (span_digits_all s) as H.
  destruct (span_digits s) as [d rest]. simpl in H.
  destruct (is_empty d); simpl; [discriminate|]. now intros [= <-].
Qed.

Lemma digit_val_nonneg (c : ascii) : is_digit c = true -> 0 <= digit_val c.
Proof.
  unfold is_digit, digit_val. cbv zeta.
  generalize (N_of_ascii c). intros n H.
  apply andb_true_iff in H as [H _]. apply N.leb_le in H. lia.
Qed.

Lemma int_acc_nonneg (s : string) (acc : Z) :
  all_digits s = true -> 0 <= acc -> 0 <= int_acc acc s.
Proof.
  revert acc. induction s as [|c r IH]; intros acc H Hacc;
    cbn [int_acc all_digits] in *; [exact Hacc|].
  apply andb_true_iff in H as [Hc Hr]. apply IH; [exact Hr|].
  pose proof (digit_val_nonneg c Hc). lia.
Qed.

Lemma match_version_here_digits (s : string) :
  let '(g1, g2, g3) := match_version_here s in
  all_digits g1 = true
  /\ (forall g, g2 = Some g -> all_digits g = true)
  /\ (forall g, g3 = Some g -> all_digits g = true).
Proof.
  unfold match_version_here.
  pose proof (span_digits_all s) as H1.
  destruct (span_digits s) as [g1 r1]. simpl in H1.
  pose proof (opt_digits_all (opt_dot r1)) as H2.
  destruct (opt_digits (opt_dot r1)) as [g2 r2]. simpl in H2.
  pose proof (opt_digits_all (opt_dot r2)) as H3.
  destruct (opt_digits (opt_dot r2)) as [g3 r3]. simpl in H3.
  auto.
Qed.

Lemma search_version_digits (s : string) (g1 : string) (g2 g3 : option string) :
  search_version s = Some (g1, g2, g3) ->
  all_digits g1 = true
  /\ (forall g, g2 = Some g -> all_digits g = true)
  /\ (forall g, g3 = Some g -> all_digits g = true).
Proof.
  induction s as [|c r IH]; simpl; [discriminate|].
  destruct (is_digit c); [|exact IH].
  intros [= E]. pose proof (match_version_here_digits (String c r)) as H.
  now rewrite E in H.
Qed.

(** X6.  [parse_suricata_version] gives no version exactly for a text
    without a digit; a version it gives has a major, and no level of it is
    negative. *)
Theorem parse_suricata_version_total (s : string) :
  (parse_suricata_version s = None <-> has_digit s = false)
  /\ (forall v, parse_suricata_version s = Some v ->
        (exists n, major v = Some n)
        /\ (forall n, In (Some n) [major v; minor v; patch v] -> 0 <= n)).
Proof.
  unfold parse_suricata_version, strip. split.
  - rewrite <- (has_digit_lstrip_eq s), <- (has_digit_rstrip_eq (lstrip s)).
    rewrite <- search_version_none.
    destruct (search_version (rstrip (lstrip s))); split;
      congruence || discriminate.
  - intro v.
    destruct (search_version (rstrip (lstrip s))) as [[[g1 g2] g3]|] eqn:E;
      [|discriminate].
    destruct (search_version_digits _ _ _ _ E) as (H1 & H2 & H3).
    intros [= <-]. simpl. split; [eauto|].
    intros n [Hn|[Hn|[Hn|[]]]].
    + injection Hn as <-. apply int_acc_nonneg; [exact H1 | lia].
    + destruct g2 as [g|]; [|discriminate]. injection Hn as <-.
      apply int_acc_nonneg; [now apply H2 | lia].
    + destruct g3 as [g|]; [|discriminate]. injection Hn as <-.
      apply int_acc_nonneg; [now apply H3 | lia].
Qed.

Lemma int_acc_uint (d : Decimal.uint) (acc : nat) :
  int_acc (Z.of_nat acc) (DecimalString.NilEmpty.string_of_uint d)
  = Z.of_nat (Nat.of_uint_acc d acc).
Proof.
  revert acc. induction d; intro acc;
    cbn [DecimalString.NilEmpty.string_of_uint int_acc Nat.of_uint_acc];
    [reflexivity| ..];
    rewrite <- IHd; f_equal; rewrite Nat.tail_mul_spec;
    match goal with
    | |- context [digit_val ?c] =>
        let v := eval vm_compute in (digit_val c) in
        change (digit_val c) with v
    end; lia.
Qed.

Lemma all_digits_uint (d : Decimal.uint) :
  all_digits (DecimalString.NilEmpty.string_of_uint d) = true.
Proof. induction d; simpl; auto. Qed.

Lemma int_show (n : nat) : int (show n) = Z.of_nat n.
Proof.
  unfold int, show. change 0 with (Z.of_nat 0). rewrite int_acc_uint.
  f_equal. apply DecimalNat.Unsigned.of_to.
Qed.

Lemma number_text_show (n : nat) : number_text (show n) = true.
Proof.
  unfold number_text, show. rewrite all_digits_uint, andb_true_r.
  destruct (Nat.to_uint n) eqn:E; try reflexivity.
  pose proof (DecimalNat.Unsigned.of_to n) as H. rewrite E in H.
  simpl in H. subst n. discriminate.
Qed.

(** X7.  Round trip: the decimal texts of three numbers, joined by dots and
    followed by anything that does not start with a digit, parse back to
    the three numbers; surrounding text without digits does not matter. *)
Theorem parse_show_round_trip (pre suf : string) (a b c : nat) :
  has_digit pre = false -> plain_suffix 0 suf = true ->
  parse_suricata_version
    (pre ++ show a ++ "." ++ show b ++ "." ++ show c ++ suf)
  = Some (mkVersion (Some (Z.of_nat a)) (Some (Z.of_nat b))
                    (Some (Z.of_nat c))).
Proof.
  intros Hpre Hsuf.
  pose proof (number_text_show a) as Ha.
  pose proof (number_text_show b) as Hb.
  pose proof (number_text_show c) as Hc.
  rewrite parse_at_digit by auto using number_text_lead.
  rewrite rstrip_digits, rstrip_dot, rstrip_digits, rstrip_dot,
    rstrip_digits by auto using number_text_digits.
  rewrite groups_three by auto using plain_suffix_rstrip.
  simpl. now rewrite !int_show.
Qed.

Lemma parse_show_round_trip_witness :
  parse_suricata_version
    ("Suricata " ++ show 12 ++ "." ++ show 0 ++ "." ++ show 7 ++ "-dev")
  = Some (mkVersion (Some 12) (Some 0) (Some 7)).
Proof.
  exact (parse_show_round_trip "Suricata " "-dev" 12 0 7 eq_refl eq_refl).
Defined.

(** ** FieldResolver: [find_value] *)

Lemma find_parts_raises (parts : list string) (obj : value) (e : exn) :
  find_parts parts obj = Raise e -> e = TypeError.
Proof.
  revert obj. induction parts as [|part rest IH]; intro obj; simpl;
    [discriminate|].
  destruct (match match_index part with
            | Some (n, i) => (n, Some i)
            | None => (part, None)
            end) as [name index].
  destruct obj as [| b | n | s | l | d]; simpl;
    try (now intros [= <-]).
  - destruct (occurs name s); simpl; [now intros [= <-] | discriminate].
  - match goal with |- context [negb ?b] => destruct b end; simpl;
      [now intros [= <-] | discriminate].
  - unfold has_key. destruct (lookup name d) as [v|]; simpl; [|discriminate].
    destruct index as [i|]; [|apply IH].
    destruct (getitem_int v (int i)); [apply IH | discriminate].
Qed.

(** X8.  The only exception [find_value] raises is [TypeError]: a key that
    a mapping lacks and an index that cannot be read never raise. *)
Theorem find_value_raises_only_TypeError (name : string) (obj : value)
  (e : exn) :
  find_value name obj = Raise e -> e = TypeError.
Proof. apply find_parts_raises. Qed.

Lemma find_value_raises_only_TypeError_witness :
  find_value "a.b" (VDict [("a", VNone)]) = Raise TypeError
  /\ TypeError = TypeError.
Proof.
  split; [reflexivity|].
  exact (find_value_raises_only_TypeError "a.b" (VDict [("a", VNone)])
           TypeError eq_refl).
Defined.

Lemma split_dot_app (a b : string) :
  split_dot (a ++ "." ++ b) = (split_dot a ++ split_dot b)%list.
Proof.
  induction a as [|c r IH]; simpl; [reflexivity|].
  destruct (Ascii.eqb c "."); simpl; [now rewrite <- IH|].
  change (String "." b) with ("." ++ b). rewrite IH.
  destruct (split_dot_cons r) as (h & t & ->). reflexivity.
Qed.

Lemma find_parts_app (p1 p2 : list string) (obj v : value) :
  find_parts p1 obj = Ok v -> v <> VNone ->
  find_parts (p1 ++ p2) obj = find_parts p2 v.
Proof.
  revert obj. induction p1 as [|part rest IH]; intros obj H Hv.
  - simpl in H. now injection H as ->.
  - simpl in H |- *.
    destruct (match match_index part with
              | Some (n, i) => (n, Some i)
              | None => (part, None)
              end) as [name index].
    destruct (py_contains name obj) as [present|]; simpl in *;
      [|discriminate].
    destruct present; simpl in *; [|congruence].
    destruct (getitem obj name) as [o|]; simpl in *; [|discriminate].
    destruct index as [i|]; [|now apply IH].
    destruct (getitem_int o (int i)); [now apply IH | congruence].
Qed.

(** X9.  Paths compose: when the path [a] resolves in [obj] to a value
    other than [None], the path [a.b] resolves in [obj] to what [b]
    resolves to in that value. *)
Theorem find_value_compose (a b : string) (obj v : value) :
  find_value a obj = Ok v -> v <> VNone ->
  find_value (a ++ "." ++ b) obj = find_value b v.
Proof.
  intros H Hv. unfold find_value. rewrite split_dot_app.
  now apply find_parts_app.
Qed.

Lemma find_value_compose_witness :
  find_value ("smtp" ++ "." ++ "rcpt_to[1]")
    (VDict [("smtp", VDict [("rcpt_to", VList [VStr "a"; VStr "b"])])])
  = find_value "rcpt_to[1]" (VDict [("rcpt_to", VList [VStr "a"; VStr "b"])]).
Proof.
  apply (find_value_compose "smtp" "rcpt_to[1]"
           (VDict [("smtp", VDict [("rcpt_to", VList [VStr "a"; VStr "b"])])])
           (VDict [("rcpt_to", VList [VStr "a"; VStr "b"])])).
  - reflexivity.
  - discriminate.
Defined.

(** *** Segments with and without an index *)

Lemma on_close_bracket {X : Type} (r : string) (f : string -> X) (g : X) :
  match r with String "]"%char t => f t | _ => g end
  = match r with
    | String c t => if Ascii.eqb c "]" then f t else g
    | EmptyString => g
    end.
Proof.
  destruct r as [|c t]; [reflexivity|].
  destruct c as [[] [] [] [] [] [] [] []]; reflexivity.
Qed.

Lemma on_open_bracket {X : Type} (r : string) (f : string -> X) (g : X) :
  match r with String "["%char t => f t | _ => g end
  = match r with
    | String c t => if Ascii.eqb c "[" then f t else g
    | EmptyString => g
    end.
Proof.
  destruct r as [|c t]; [reflexivity|].
  destruct c as [[] [] [] [] [] [] [] []]; reflexivity.
Qed.

Lemma on_line_end (r : string) :
  match r with
  | String c (String "]"%char _ as t) => if Ascii.eqb c newline then t else r
  | _ => r
  end
  = match r with
    | String c (String c' _ as t) =>
        if Ascii.eqb c' "]" && Ascii.eqb c newline then t else r
    | _ => r
    end.
Proof.
  destruct r as [|c [|c' t]]; try reflexivity.
  destruct c' as [[] [] [] [] [] [] [] []]; reflexivity.
Qed.

Lemma match_index_alt_eq (part : string) :
  match_index part = match_index_alt part.
Proof.
  unfold match_index, match_index_alt. cbv zeta.
  rewrite on_line_end.
  etransitivity; [apply on_close_bracket|]. cbv beta.
  set (r := match rev_string part with
            | String c (String c' _ as t) => _
            | _ => _
            end).
  destruct r as [|c t]; [reflexivity|].
  destruct (Ascii.eqb c "]"); [|reflexivity].
  destruct (span_digits t) as [ds rest].
  etransitivity; [apply on_open_bracket|]. reflexivity.
Qed.

Lemma string_app_assoc (a b c : string) : (a ++ b) ++ c = a ++ b ++ c.
Proof. induction a; simpl; congruence. Qed.

Lemma string_app_empty (a : string) : a ++ "" = a.
Proof. induction a; simpl; congruence. Qed.

Lemma rev_string_acc_app (s acc : string) :
  rev_string_acc s acc = rev_string s ++ acc.
Proof.
  unfold rev_string. revert acc.
  induction s as [|c r IH]; intro acc; simpl; [reflexivity|].
  rewrite IH, (IH (String c "")), string_app_assoc. reflexivity.
Qed.

Lemma rev_string_cons (c : ascii) (s : string) :
  rev_string (String c s) = rev_string s ++ String c "".
Proof. unfold rev_string at 1. simpl. apply rev_string_acc_app. Qed.

Lemma rev_string_app (a b : string) :
  rev_string (a ++ b) = rev_string b ++ rev_string a.
Proof.
  induction a as [|c r IH]; simpl.
  - now rewrite string_app_empty.
  - now rewrite !rev_string_cons, IH, string_app_assoc.
Qed.

Lemma rev_string_involutive (s : string) : rev_string (rev_string s) = s.
Proof.
  induction s as [|c r IH]; [reflexivity|].
  now rewrite rev_string_cons, rev_string_app, IH.
Qed.

Lemma has_char_app (x : ascii) (a b : string) :
  has_char x (a ++ b) = has_char x a || has_char x b.
Proof.
  induction a as [|c r IH]; simpl; [reflexivity|].
  now rewrite IH, orb_assoc.
Qed.

Lemma has_char_rev (x : ascii) (s : string) :
  has_char x (rev_string s) = has_char x s.
Proof.
  induction s as [|c r IH]; [reflexivity|].
  rewrite rev_string_cons, has_char_app, IH. simpl.
  rewrite orb_false_r. apply orb_comm.
Qed.

Lemma has_newline_char (s : string) : has_newline s = has_char newline s.
Proof. induction s as [|c r IH]; simpl; congruence. Qed.

Lemma all_digits_app (a b : string) :
  all_digits (a ++ b) = all_digits a && all_digits b.
Proof.
  induction a as [|c r IH]; simpl; [reflexivity|].
  now rewrite IH, andb_assoc.
Qed.

Lemma all_digits_rev (s : string) : all_digits (rev_string s) = all_digits s.
Proof.
  induction s as [|c r IH]; [reflexivity|].
  rewrite rev_string_cons, all_digits_app, IH. simpl.
  rewrite andb_true_r. apply andb_comm.
Qed.

Lemma is_empty_rev (s : string) : is_empty (rev_string s) = is_empty s.
Proof.
  destruct s as [|c r]; [reflexivity|]. rewrite rev_string_cons.
  now destruct (rev_string r).
Qed.

Lemma split_dot_plain (s : string) :
  has_char "." s = false -> split_dot s = [s].
Proof.
  induction s as [|c r IH]; simpl; [reflexivity|].
  intro H. apply orb_false_iff in H as [Hc Hr].
  now rewrite Hc, IH.
Qed.

Lemma digits_no_char (x : ascii) (s : string) :
  is_digit x = false -> all_digits s = true -> has_char x s = false.
Proof.
  intros Hx. induction s as [|c r IH]; simpl; [reflexivity|].
  intro H. apply andb_true_iff in H as [Hc Hr]. rewrite IH by assumption.
  destruct (Ascii.eqb_spec c x) as [->|_]; [congruence | reflexivity].
Qed.

(** A segment without a closing bracket has no index. *)
Lemma match_index_plain (s : string) :
  has_char "]" s = false -> match_index s = None.
Proof.
  intro H. rewrite match_index_alt_eq. unfold match_index_alt.
  rewrite <- has_char_rev in H.
  destruct (rev_string s) as [|c [|c' t]]; simpl in *; [reflexivity| |].
  - rewrite orb_false_r in H. now rewrite H.
  - apply orb_false_iff in H as [Hc H].
    apply orb_false_iff in H as [Hc' _]. rewrite Hc'. simpl. now rewrite Hc.
Qed.

(** A segment [name[digits]] has the name and the index it shows. *)
Lemma match_index_indexed (name ds : string) :
  has_newline name = false -> number_text ds = true ->
  match_index (name ++ "[" ++ ds ++ "]") = Some (name, ds).
Proof.
  intros Hn Hd. apply andb_true_iff in Hd as [Hne Hd].
  rewrite match_index_alt_eq. unfold match_index_alt.
  rewrite !rev_string_app, !string_app_assoc.
  change (rev_string "]") with "]". change (rev_string "[") with "[".
  change ("]" ++ rev_string ds ++ "[" ++ rev_string name)
    with (String "]" (rev_string ds ++ "[" ++ rev_string name)).
  cbv zeta.
  assert (E : forall t : string,
             match String "]" t with
             | String c (String c' _ as t0) =>
                 if Ascii.eqb c' "]" && Ascii.eqb c newline
                 then t0 else String "]" t
             | _ => String "]" t
             end = String "]" t).
  { intros [|c' t]; [reflexivity|]. cbv beta iota.
    change (Ascii.eqb "]" newline) with false. now rewrite andb_false_r. }
  etransitivity; [apply (f_equal (fun r => match r with
                                          | String c t => _
                                          | EmptyString => None
                                          end)); apply E|].
  cbv beta iota. change (Ascii.eqb "]" "]") with true. cbv iota.
  rewrite span_digits_app by (now rewrite ?all_digits_rev).
  change ("[" ++ rev_string name) with (String "[" (rev_string name)).
  cbv iota. change (Ascii.eqb "[" "[") with true. cbv iota.
  rewrite is_empty_rev, has_newline_char, has_char_rev, <- has_newline_char.
  rewrite Hn. apply negb_true_iff in Hne. rewrite Hne. simpl.
  now rewrite !rev_string_involutive.
Qed.

Lemma find_value_plain_key_aux (k : string) (d : dict) :
  has_char "." k = false -> has_char "]" k = false ->
  find_value k (VDict d)
  = Ok (match lookup k d with Some v => v | None => VNone end).
Proof.
  intros Hdot Hbr. unfold find_value. rewrite split_dot_plain by assumption.
  simpl. rewrite match_index_plain by assumption. simpl. unfold has_key.
  now destruct (lookup k d).
Qed.

(** X10.  A path that is one plain key (no dot, no closing bracket) is a
    lookup in the mapping: the value of the key, or [None] when the mapping
    lacks it. *)
Theorem find_value_plain_key (k : string) (d : dict) :
  has_char "." k = false -> has_char "]" k = false ->
  find_value k (VDict d)
  = Ok (match lookup k d with Some v => v | None => VNone end).
Proof. apply find_value_plain_key_aux. Qed.

Lemma find_value_plain_key_witness :
  find_value "event_type" (VDict [("event_type", VStr "alert")])
  = Ok (VStr "alert").
Proof.
  exact (find_value_plain_key "event_type" [("event_type", VStr "alert")]
           eq_refl eq_refl).
Defined.

(** X11.  A path [k[i]], for a key [k] the mapping has and any index [i]
    in decimal, reads item [i] of a list, or [None] when the list is
    shorter; on a value that is neither a list nor a string it is [None]
    as well. *)
Theorem find_value_indexed (k : string) (i : nat) (d : dict) (v : value) :
  has_char "." k = false -> has_newline k = false ->
  lookup k d = Some v ->
  (forall l, v = VList l ->
     find_value (k ++ "[" ++ show i ++ "]") (VDict d) = Ok (nth i l VNone))
  /\ (match v with VList _ | VStr _ => False | _ => True end ->
      find_value (k ++ "[" ++ show i ++ "]") (VDict d) = Ok VNone).
Proof.
  intros Hdot Hnl Hk.
  assert (E : find_value (k ++ "[" ++ show i ++ "]") (VDict d)
              = Ok (match getitem_int v (Z.of_nat i) with
                    | Some x => x
                    | None => VNone
                    end)).
  { unfold find_value. rewrite split_dot_plain.
    - cbn [find_parts].
      rewrite match_index_indexed by auto using number_text_show.
      simpl. unfold has_key. rewrite Hk. simpl. rewrite int_show.
      now destruct (getitem_int v (Z.of_nat i)).
    - rewrite !has_char_app, Hdot. simpl.
      rewrite (digits_no_char "." (show i)); [reflexivity | reflexivity |].
      apply number_text_digits, number_text_show. }
  rewrite E. split.
  - intros l ->. simpl. rewrite Nat2Z.id. f_equal. clear.
    revert i. induction l as [|x l IH]; intros [|i]; simpl; auto.
  - now destruct v.
Qed.

Lemma find_value_indexed_witness :
  find_value ("rcpt_to" ++ "[" ++ show 1 ++ "]")
    (VDict [("rcpt_to", VList [VStr "a"; VStr "b"])])
  = Ok (VStr "b").
Proof.
  exact (proj1 (find_value_indexed "rcpt_to" 1
                  [("rcpt_to", VList [VStr "a"; VStr "b"])]
                  (VList [VStr "a"; VStr "b"]) eq_refl eq_refl eq_refl)
           [VStr "a"; VStr "b"] eq_refl).
Defined.

(** ** FilterCheck and StatsCheck: edge cases *)

Lemma filter_filename_value (d : dict) (path : string) :
  filter_filename d = Some path ->
  (if has_key "filename" d then getitem (VDict d) "filename"
   else Ok (VStr "eve.json")) = Ok (VStr path).
Proof.
  unfold filter_filename, has_key. simpl.
  destruct (lookup "filename" d) as [[| | |p| |]|]; try discriminate;
    now intros [= ->].
Qed.

(** When the file a filter names, or [eve.json] when it names none,
    does not exist, [FilterCheck.run] fails with a message of that file,
    whatever the filter declares besides. *)
Theorem FilterCheck_missing_file (d : dict) (path : string)
  (files : string -> option (list value)) :
  filter_filename d = Some path -> files path = None ->
  FilterCheck_run (VDict d) files
  = Raise (TestError (Format "%s does not exist" [VStr path])).
Proof.
  intros Hf Hfile. unfold FilterCheck_run. simpl py_contains.
  cbn [bind]. rewrite (filter_filename_value d path Hf). cbn [bind].
  now rewrite Hfile.
Qed.

Lemma FilterCheck_missing_file_witness :
  FilterCheck_run (VDict [("filename", VStr "fast.json")]) (fun _ => None)
  = Raise (TestError (Format "%s does not exist" [VStr "fast.json"])).
Proof.
  exact (FilterCheck_missing_file [("filename", VStr "fast.json")]
           "fast.json" (fun _ => None) eq_refl eq_refl).
Defined.

(** X12.  On an empty log [FilterCheck.run] never looks at [match]: with or
    without that key, it passes exactly when the declared count is 0, and
    otherwise fails with the declared count against 0. *)
Theorem FilterCheck_empty_log (d : dict) (path : string) (declared : Z)
  (files : string -> option (list value)) :
  filter_filename d = Some path -> files path = Some [] ->
  lookup "count" d = Some (VInt declared) ->
  (FilterCheck_run (VDict d) files = Ok true <-> declared = 0)
  /\ (declared <> 0 ->
      FilterCheck_run (VDict d) files = Raise (count_mismatch d declared 0)).
Proof.
  intros Hf Hfile Hc.
  assert (E : FilterCheck_run (VDict d) files
              = if 0 =? declared then Ok true
                else Raise (count_mismatch d declared 0)).
  { unfold FilterCheck_run, count_mismatch. simpl py_contains. cbn [bind].
    rewrite (filter_filename_value d path Hf). cbn [bind].
    rewrite Hfile. simpl. rewrite Hc. simpl.
    destruct declared; simpl; try reflexivity; unfold has_key;
      now destruct (lookup "comment" d). }
  rewrite E. destruct (Z.eqb_spec 0 declared); split;
    try (split; intro; congruence); intro; congruence.
Qed.

Lemma FilterCheck_empty_log_witness :
  FilterCheck_run (VDict [("count", VInt 0)])
    (fun path => if String.eqb path "eve.json" then Some [] else None)
  = Ok true.
Proof.
  apply (proj1 (FilterCheck_empty_log [("count", VInt 0)] "eve.json" 0
                  (fun path => if String.eqb path "eve.json"
                               then Some [] else None)
                  eq_refl eq_refl eq_refl)).
  reflexivity.
Defined.

(** X13.  [has-key] and [not-has-key] are complements: on any event and
    for any path, one gives a result exactly when the other gives the
    opposite one, and both raise together.  A key bound to [None] counts
    as missing. *)
Theorem has_key_not_has_key (p event : value) (b : bool) :
  (FilterCheck_match (VDict [("match", VDict [("has-key", p)])]) event = Ok b
   <-> FilterCheck_match (VDict [("match", VDict [("not-has-key", p)])]) event
       = Ok (negb b))
  /\ (forall k d,
         has_char "." k = false -> has_char "]" k = false ->
         lookup k d = Some VNone ->
         FilterCheck_match (VDict [("match", VDict [("has-key", VStr k)])])
           (VDict d) = Ok false).
Proof.
  split.
  - unfold FilterCheck_match. simpl.
    destruct (find_value_of p event) as [val|]; simpl;
      [|split; discriminate].
    destruct (is_None val), b; simpl; split; congruence.
  - intros k d Hdot Hbr Hk. unfold FilterCheck_match. simpl.
    change (find_value_of (VStr k) (VDict d)) with (find_value k (VDict d)).
    rewrite find_value_plain_key_aux by assumption. now rewrite Hk.
Qed.

Lemma has_key_not_has_key_witness :
  FilterCheck_match (VDict [("match", VDict [("has-key", VStr "vlan")])])
    (VDict [("event_type", VStr "flow"); ("vlan", VNone)])
  = Ok false.
Proof.
  exact (proj2 (has_key_not_has_key VNone VNone true) "vlan"
           [("event_type", VStr "flow"); ("vlan", VNone)]
           eq_refl eq_refl eq_refl).
Defined.

Lemma forallb_Permutation {A : Type} (f : A -> bool) (l l' : list A) :
  Permutation l l' -> forallb f l = forallb f l'.
Proof.
  induction 1; simpl; try congruence.
  now rewrite !andb_assoc, (andb_comm (f y)).
Qed.

(** X14.  Whether an event matches does not depend on the order in which
    the entries of [match] are visited: two filters whose entries are a
    permutation of each other match the same events. *)
Theorem FilterCheck_match_order (d d' items items' : dict) (event : value) :
  lookup "match" d = Some (VDict items) ->
  lookup "match" d' = Some (VDict items') ->
  Permutation items items' ->
  FilterCheck_match (VDict d) event = Ok true
  <-> FilterCheck_match (VDict d') event = Ok true.
Proof.
  intros Hd Hd' Hp. unfold FilterCheck_match. simpl. rewrite Hd, Hd'. simpl.
  rewrite !match_items_true. now rewrite (forallb_Permutation _ _ _ Hp).
Qed.

Lemma FilterCheck_match_order_witness :
  FilterCheck_match
    (VDict [("match", VDict [("event_type", VStr "alert");
                             ("alert.signature_id", VInt 1)])])
    (VDict [("event_type", VStr "alert");
            ("alert", VDict [("signature_id", VInt 1)])]) = Ok true
  <-> FilterCheck_match
        (VDict [("match", VDict [("alert.signature_id", VInt 1);
                                 ("event_type", VStr "alert")])])
        (VDict [("event_type", VStr "alert");
                ("alert", VDict [("signature_id", VInt 1)])]) = Ok true.
Proof.
  apply (FilterCheck_match_order
           [("match", VDict [("event_type", VStr "alert");
                             ("alert.signature_id", VInt 1)])]
           [("match", VDict [("alert.signature_id", VInt 1);
                             ("event_type", VStr "alert")])]
           [("event_type", VStr "alert"); ("alert.signature_id", VInt 1)]
           [("alert.signature_id", VInt 1); ("event_type", VStr "alert")]
           _ eq_refl eq_refl).
  apply perm_swap.
Defined.

(** X15.  A filter whose [match] has no entry counts every line of the log:
    it passes exactly when the declared count is the number of lines. *)
Theorem FilterCheck_empty_match (d : dict) (path : string) (declared : Z)
  (events : list value) (files : string -> option (list value)) :
  lookup "match" d = Some (VDict []) ->
  lookup "count" d = Some (VInt declared) ->
  filter_filename d = Some path -> files path = Some events ->
  FilterCheck_run (VDict d) files = Ok true
  <-> declared = Z.of_nat (List.length events).
Proof.
  intros Hm Hc Hf Hfile. unfold FilterCheck_run. simpl py_contains.
  cbn [bind]. rewrite (filter_filename_value d path Hf). cbn [bind].
  rewrite Hfile.
  assert (Hres : forall l : list value,
             forallb (fun e => forallb (entry_resolves e) []) l = true)
    by (induction l; simpl; auto).
  rewrite (count_matches_resolved d [] 0 events Hm (Hres events)).
  assert (En : forall l : list value,
             matching_events [] l = Z.of_nat (List.length l)).
  { intro l. unfold matching_events. f_equal. simpl.
    induction l as [|e l IH]; simpl; congruence. }
  rewrite En, Z.add_0_l. cbn [bind]. simpl getitem. rewrite Hc. cbn [bind].
  simpl py_eq.
  destruct (Z.eqb_spec (Z.of_nat (List.length events)) declared) as [E|E].
  - split; [lia | reflexivity].
  - split; [|lia]. unfold has_key.
    destruct (lookup "comment" d); simpl; discriminate.
Qed.

Lemma FilterCheck_empty_match_witness :
  FilterCheck_run (VDict [("count", VInt 2); ("match", VDict [])])
    (fun path => if String.eqb path "eve.json"
                 then Some [VInt 1; VStr "not an event"] else None)
  = Ok true.
Proof.
  apply (proj2 (FilterCheck_empty_match
                  [("count", VInt 2); ("match", VDict [])] "eve.json" 2
                  [VInt 1; VStr "not an event"]
                  (fun path => if String.eqb path "eve.json"
                               then Some [VInt 1; VStr "not an event"]
                               else None)
                  eq_refl eq_refl eq_refl eq_refl)).
  reflexivity.
Defined.

Lemma last_stats_app (s0 s : value) (pre rest : list value) :
  last_stats s0 pre = Ok s ->
  last_stats s0 (pre ++ rest) = last_stats s rest.
Proof.
  revert s0. induction pre as [|e pre IH]; intros s0 H; simpl in *.
  - now injection H as ->.
  - destruct (getitem e "event_type") as [ty|]; simpl in *; [|discriminate].
    destruct (py_eq ty (VStr "stats")); [|now apply IH].
    destruct (getitem e "stats") as [s1|]; simpl in *; [|discriminate].
    now apply IH.
Qed.

Lemma last_stats_log (s0 : value) (events : list value) :
  forallb is_log_event events = true ->
  exists s, last_stats s0 events = Ok s.
Proof.
  revert s0. induction events as [|e l IH]; intros s0 H; simpl in *;
    [eauto|].
  apply andb_true_iff in H as [He Hl].
  unfold is_log_event, is_other_event, stats_of in He.
  destruct (getitem e "event_type") as [ty|]; simpl in *; [|discriminate].
  destruct (py_eq ty (VStr "stats")); simpl in *; [|now apply IH].
  destruct (getitem e "stats") as [s1|]; simpl in *; [|discriminate].
  now apply IH.
Qed.

Lemma StatsCheck_pass_iff (d : dict) (events : list value) :
  NoDup (map fst d) ->
  StatsCheck_run (VDict d) (Some events) = Ok true
  <-> exists stats,
        last_stats VNone events = Ok stats /\ Forall (key_passes stats) d.
Proof.
  intro Hnd. unfold StatsCheck_run.
  destruct (last_stats VNone events) as [stats|err]; simpl.
  - change (map (fun kv : string * value => VStr (fst kv)) d)
      with (keys_of d).
    rewrite (check_stats_pass d stats Hnd d (incl_refl d)). split.
    + intro H. eauto.
    + intros (s & [= <-] & H). exact H.
  - split; [discriminate|]. intros (s & E & _). discriminate.
Qed.

(** X16.  Whether [StatsCheck.run] passes does not depend on the order in
    which the declared keys are visited. *)
Theorem StatsCheck_order (d d' : dict) (eve : option (list value)) :
  NoDup (map fst d) -> Permutation d d' ->
  StatsCheck_run (VDict d) eve = Ok true
  <-> StatsCheck_run (VDict d') eve = Ok true.
Proof.
  intros Hnd Hp.
  assert (Hnd' : NoDup (map fst d'))
    by (eapply Permutation_NoDup; [apply Permutation_map, Hp | exact Hnd]).
  destruct eve as [events|]; [|simpl; tauto].
  rewrite !StatsCheck_pass_iff by assumption.
  split; intros (s & E & H); exists s; split; try assumption.
  - eapply Permutation_Forall; eassumption.
  - eapply Permutation_Forall; [apply Permutation_sym|]; eassumption.
Qed.

Lemma StatsCheck_order_witness :
  StatsCheck_run (VDict [("a", VInt 1); ("b", VInt 2)])
    (Some [VDict [("event_type", VStr "stats");
                  ("stats", VDict [("a", VInt 1); ("b", VInt 2)])]])
  = Ok true
  <-> StatsCheck_run (VDict [("b", VInt 2); ("a", VInt 1)])
        (Some [VDict [("event_type", VStr "stats");
                      ("stats", VDict [("a", VInt 1); ("b", VInt 2)])]])
      = Ok true.
Proof.
  apply (StatsCheck_order [("a", VInt 1); ("b", VInt 2)]
           [("b", VInt 2); ("a", VInt 1)]).
  - repeat constructor; simpl; intuition discriminate.
  - apply perm_swap.
Defined.

(** X17.  With no key declared, [StatsCheck.run] passes on every log whose
    lines are events, with or without an event of type [stats]. *)
Theorem StatsCheck_no_key (events : list value) :
  forallb is_log_event events = true ->
  StatsCheck_run (VDict []) (Some events) = Ok true.
Proof.
  intro H. unfold StatsCheck_run.
  destruct (last_stats_log VNone events H) as (s & ->). reflexivity.
Qed.

Lemma StatsCheck_no_key_witness :
  StatsCheck_run (VDict []) (Some [VDict [("event_type", VStr "flow")]])
  = Ok true.
Proof.
  exact (StatsCheck_no_key [VDict [("event_type", VStr "flow")]] eq_refl).
Defined.

(** X18.  [StatsCheck.run] reads the whole log before it compares a key: a
    line that is a mapping without [event_type], after lines that are
    events, ends the check in a [KeyError], whatever is declared and
    whatever follows. *)
Theorem StatsCheck_line_without_type (config : value) (pre post : list value)
  (d : dict) :
  forallb is_log_event pre = true ->
  lookup "event_type" d = None ->
  StatsCheck_run config (Some (pre ++ VDict d :: post)%list) = Raise KeyError.
Proof.
  intros Hpre Hd. unfold StatsCheck_run.
  destruct (last_stats_log VNone pre Hpre) as (s & E).
  rewrite (last_stats_app _ _ _ _ E). simpl. now rewrite Hd.
Qed.

Lemma StatsCheck_line_without_type_witness :
  StatsCheck_run (VDict [])
    (Some [VDict [("event_type", VStr "flow")]; VDict [("timestamp", VInt 0)]])
  = Raise KeyError.
Proof.
  exact (StatsCheck_line_without_type (VDict [])
           [VDict [("event_type", VStr "flow")]] []
           [("timestamp", VInt 0)] eq_refl eq_refl).
Defined.

(** ** RequirementGate: further properties *)

Lemma check_skip_clauses_pass (os : OS) (sc : SuricataConfig)
  (clauses : list SkipClause) :
  existsb (clause_matches os sc) clauses = false ->
  check_skip_clauses os sc clauses = Ok tt.
Proof.
  induction clauses as [|skip rest IH]; simpl; [reflexivity|].
  intro H. apply orb_false_iff in H as [Hs Hr].
  unfold clause_matches in Hs. apply orb_false_iff in Hs as [Hu Hf].
  destruct (skip_uid skip) as [uid|]; [rewrite Hu|]; simpl;
    (destruct (skip_feature skip) as [feature|]; [rewrite Hf|]; simpl;
     auto).
Qed.

(** X19.  [check_skip] returns exactly when no clause of [skip] applies
    (none is declared, or for each the uid differs and the feature is
    absent); otherwise what it raises is an [UnsatisfiedRequirementError],
    so the test is reported skipped. *)
Theorem check_skip_passes_iff (os : OS) (t : TestRunner) :
  (check_skip os t = Ok tt
   <-> existsb (clause_matches os (suricata_config t))
         (match cfg_skip (config t) with Some c => c | None => [] end)
       = false)
  /\ (forall e, check_skip os t = Raise e ->
        exists m, e = UnsatisfiedRequirementError m).
Proof.
  unfold check_skip. destruct (cfg_skip (config t)) as [clauses|].
  - destruct (existsb (clause_matches os (suricata_config t)) clauses) eqn:E.
    + destruct (check_skip_clauses_matches os _ clauses E)
        as (skip & m & _ & _ & ->).
      split; [split; discriminate|]. intros e [= <-]. eauto.
    + rewrite (check_skip_clauses_pass os _ clauses E).
      split; [tauto | discriminate].
  - simpl. split; [tauto | discriminate].
Qed.

Lemma require_all_raises {A : Type} (ok : A -> bool) (err : A -> exn)
  (items : list A) (e : exn) :
  require_all ok err items = Raise e -> exists x, In x items /\ e = err x.
Proof.
  induction items as [|x rest IH]; simpl; [discriminate|].
  destruct (ok x).
  - intro H. destruct (IH H) as (y & Hy & ->). eauto.
  - intros [= <-]. eauto.
Qed.

Lemma bind_raises {A B : Type} (r : result A) (k : A -> result B) (e : exn) :
  bind r k = Raise e -> r = Raise e \/ exists a, r = Ok a /\ k a = Raise e.
Proof. destruct r as [a|e']; simpl; [eauto | intros [= <-]; auto]. Qed.

Lemma when_declared_raises {A : Type} (o : option (list A))
  (ok : A -> bool) (msg : A -> message) (e : exn) :
  when_declared o
    (require_all ok (fun x => UnsatisfiedRequirementError (msg x)))
  = Raise e ->
  exists m, e = UnsatisfiedRequirementError m.
Proof.
  destruct o as [items|]; simpl; [|discriminate].
  intro H. apply require_all_raises in H as (x & _ & ->). eauto.
Qed.

(** The requirements of [check_requires] that follow the two on
    versions. *)
Ltac later_requirements H :=
  repeat (apply bind_raises in H as [H|(_ & _ & H)];
          [apply when_declared_raises in H; now left|]);
  match type of H with
  | context [cfg_command ?c] => destruct (cfg_command c); [discriminate|]
  end;
  match type of H with
  | context [if ?b then _ else _] => destruct b; [|discriminate]
  end;
  injection H as <-; left; eauto.

(** X20.  The only exceptions of [check_requires] are
    [UnsatisfiedRequirementError], which reports the test skipped, and
    [AttributeError]; the latter needs a declared [min-version] or
    [version] together with a version, of the subject or of the
    requirement, that did not parse. *)
Theorem check_requires_raises (os : OS) (t : TestRunner) (e : exn) :
  check_requires os t = Raise e ->
  (exists m, e = UnsatisfiedRequirementError m)
  \/ (e = AttributeError
      /\ exists r text,
           cfg_requires (config t) = Some r
           /\ (req_min_version r = Some text \/ req_version r = Some text)
           /\ (version (suricata_config t) = None
               \/ parse_suricata_version text = None)).
Proof.
  unfold check_requires. intro H.
  destruct (cfg_requires (config t)) as [r|] eqn:Er.
  - destruct (requires_is_empty r); [discriminate|].
    apply bind_raises in H as [H|(_ & _ & H)].
    { destruct (req_min_version r) as [text|] eqn:Et; simpl in H;
        [|discriminate].
      destruct (version (suricata_config t)) as [sv|] eqn:Esv;
        [|injection H as <-; right; split; [reflexivity|];
          exists r, text; auto].
      destruct (parse_suricata_version text) as [pv|] eqn:Epv;
        [|injection H as <-; right; split; [reflexivity|];
          exists r, text; auto].
      destruct (version_gte sv pv); simpl in H; [discriminate|].
      injection H as <-. left. eauto. }
    apply bind_raises in H as [H|(_ & _ & H)].
    { destruct (req_version r) as [text|] eqn:Et; simpl in H;
        [|discriminate].
      destruct (version (suricata_config t)) as [sv|] eqn:Esv;
        [|injection H as <-; right; split; [reflexivity|];
          exists r, text; auto].
      destruct (parse_suricata_version text) as [pv|] eqn:Epv;
        [|injection H as <-; right; split; [reflexivity|];
          exists r, text; auto].
      destruct (version_equal sv pv); simpl in H; [discriminate|].
      injection H as <-. left. eauto. }
    later_requirements H.
  - simpl in H.
    destruct (cfg_command (config t)); [discriminate|].
    match type of H with
    | context [if ?b then _ else _] => destruct b; [|discriminate]
    end.
    injection H as <-. left. eauto.
Qed.

Lemma check_requires_raises_witness :
  check_requires (os_root [])
    (runner_of (mkConfig None None
                  (Some (mkRequires (Some "latest") None None None
                                    None None None))
                  None None None None None None None))
  = Raise AttributeError
  /\ ((exists m, AttributeError = UnsatisfiedRequirementError m)
      \/ (AttributeError = AttributeError
          /\ exists r text,
               Some (mkRequires (Some "latest") None None None
                                None None None) = Some r
               /\ (req_min_version r = Some text \/ req_version r = Some text)
               /\ (version suricata_403 = None
                   \/ parse_suricata_version text = None))).
Proof.
  split; [reflexivity|].
  exact (check_requires_raises (os_root [])
           (runner_of (mkConfig None None
                         (Some (mkRequires (Some "latest") None None None
                                           None None None))
                         None None None None None None None))
           AttributeError eq_refl).
Defined.

(** X21.  A pcap file is required by default.  Without [requires],
    [check_requires] returns exactly when [command] or [pcap] is declared
    or the directory holds a pcap file, and otherwise raises that no pcap
    file was found; [requires: {pcap: false}] returns without one, and so
    does a [requires] that declares nothing. *)
Theorem pcap_required_by_default (os : OS) (t : TestRunner) :
  (cfg_requires (config t) = None ->
   (check_requires os t = Ok None
    <-> cfg_command (config t) <> None \/ cfg_pcap (config t) <> None
        \/ pcaps_found os t <> [])
   /\ (check_requires os t <> Ok None ->
       check_requires os t
       = Raise (UnsatisfiedRequirementError
                  (Text (VStr "No pcap file found")))))
  /\ (cfg_requires (config t)
      = Some (mkRequires None None None None None None (Some false)) ->
      check_requires os t = Ok None)
  /\ (cfg_requires (config t) = Some empty_requires ->
      check_requires os t = Ok (Some true)).
Proof.
  unfold check_requires. repeat split.
  - rewrite H. simpl.
    destruct (cfg_command (config t)); [intros _; left; discriminate|].
    destruct (cfg_pcap (config t));
      [intros _; right; left; discriminate|].
    destruct (pcaps_found os t); simpl; [discriminate|].
    intros _. right. right. discriminate.
  - rewrite H. simpl.
    destruct (cfg_command (config t)); [reflexivity|].
    destruct (cfg_pcap (config t)); [reflexivity|].
    destruct (pcaps_found os t); simpl; [|reflexivity].
    intros [E|[E|E]]; congruence.
  - rewrite H. simpl.
    destruct (cfg_command (config t)); [congruence|].
    destruct (cfg_pcap (config t)); [simpl; congruence|].
    destruct (pcaps_found os t); simpl; congruence.
  - intros ->. simpl. now destruct (cfg_command (config t)).
  - intros ->. reflexivity.
Qed.

Lemma pcap_required_by_default_witness :
  check_requires (os_root []) (runner_of empty_config)
  = Raise (UnsatisfiedRequirementError (Text (VStr "No pcap file found"))).
Proof.
  apply (proj2 (proj1 (pcap_required_by_default (os_root [])
                         (runner_of empty_config)) eq_refl)).
  discriminate.
Defined.

(** ** ExecutionCoordinator: [default_args] *)

(** X22.  [default_args] builds an argument vector exactly when the input
    and the rules are unambiguous: [pcap] is declared or at most one pcap
    file is found, and at most one rule file is found.  Otherwise it
    raises one of its two [TestError]s. *)
Theorem default_args_fails_iff (os : OS) (t : TestRunner) :
  ((exists args, default_args os t = Ok args)
   <-> (cfg_pcap (config t) <> None
        \/ (List.length (pcaps_found os t) <= 1)%nat)
       /\ (List.length (rules_found os t) <= 1)%nat)
  /\ (forall e, default_args os t = Raise e ->
        e = TestError (Text (VStr "More than 1 pcap file found"))
        \/ e = TestError (Text (VStr "More than 1 rule file found"))).
Proof.
  unfold default_args, rules_found. cbv zeta.
  destruct (cfg_pcap (config t)) as [pcap|]; cbn [bind].
  - destruct (os_glob os (path_join (directory t) "*.rules"))
      as [|r [|r' rules]]; simpl.
    + split; [split; [intros _; split; [left; discriminate|lia]|eauto]
             |discriminate].
    + split; [split; [intros _; split; [left; discriminate|lia]|eauto]
             |discriminate].
    + split; [split; [intros [? [=]]|intros [_ H]; lia]
             |intros e [= <-]; auto].
  - destruct (Nat.ltb_spec 1 (List.length (pcaps_found os t))) as [Hn|Hn].
    + simpl. split; [split; [intros [? [=]]|]|intros e [= <-]; auto].
      intros [[H|H] _]; [congruence|lia].
    + assert (E : forall pre : list string,
                 (match pcaps_found os t with
                  | p :: _ => Ok (pre ++ ["-r"; p])%list
                  | [] => Ok pre
                  end) = Ok (match pcaps_found os t with
                             | p :: _ => (pre ++ ["-r"; p])%list
                             | [] => pre
                             end))
        by (intro; now destruct (pcaps_found os t)).
      rewrite E. cbn [bind].
      destruct (os_glob os (path_join (directory t) "*.rules"))
        as [|r [|r' rules]]; simpl.
      * split; [split; [intros _; split; [now right|lia]|eauto]
               |discriminate].
      * split; [split; [intros _; split; [now right|lia]|eauto]
               |discriminate].
      * split; [split; [intros [? [=]]|intros [_ H]; lia]
               |intros e [= <-]; auto].
Qed.

(** X23.  The vector [default_args] builds starts with [valgrind] under
    [--valgrind] and with the subject's binary otherwise, and ends with the
    input, then [-S] and the rule file: a declared [pcap] is the input
    whatever the directory holds, else the pcap file found if any; the
    rule file is the one found, else [/dev/null]. *)
Theorem default_args_layout (os : OS) (t : TestRunner) (args : list string) :
  default_args os t = Ok args ->
  hd_error args
  = Some (if valgrind (suricata_config t) then "valgrind"
          else path_join (cwd t) "src/suricata")
  /\ exists pre,
       args = (pre ++ input_args os t ++ ["-S"; rule_arg os t])%list.
Proof.
  unfold default_args, input_args, rule_arg, rules_found. cbv zeta.
  set (a0 := if valgrind (suricata_config t) then _ else _).
  assert (Hhd : forall l : list string,
             hd_error ((a0 ++ [path_join (cwd t) "src/suricata"]) ++ l)%list
             = Some (if valgrind (suricata_config t) then "valgrind"
                     else path_join (cwd t) "src/suricata")).
  { intro l. subst a0. now destruct (valgrind (suricata_config t)). }
  set (a1 := (a0 ++ [path_join (cwd t) "src/suricata"])%list) in *.
  set (a2 := match cfg_args (config t) with
             | Some declared => (a1 ++ flat_map split_space declared)%list
             | None => a1
             end).
  assert (E2 : exists l, a2 = (a1 ++ l)%list).
  { subst a2. destruct (cfg_args (config t)); eauto.
    exists []. now rewrite app_nil_r. }
  destruct E2 as (l2 & E2).
  match goal with
  | |- context [if os_path_exists os ?p then ?x else ?y] =>
      set (a5 := if os_path_exists os p then x else y)
  end.
  assert (E5 : exists l, a5 = (a1 ++ l)%list).
  { subst a5. rewrite E2.
    destruct (os_path_exists os _), (occurs "ips" _);
      rewrite <- ?app_assoc; eauto. }
  destruct E5 as (l5 & E5). clearbody a5. subst a5.
  intro H.
  assert (Hin : exists input,
             input = match cfg_pcap (config t) with
                     | Some pcap => ["-r"; pcap]
                     | None =>
                         match pcaps_found os t with
                         | p :: _ => ["-r"; p]
                         | [] => []
                         end
                     end) by eauto.
  destruct Hin as (input & Hin). rewrite <- Hin.
  assert (H' : (match os_glob os (path_join (directory t) "*.rules") with
                | [] => Ok (((a1 ++ l5) ++ input) ++ ["-S"; "/dev/null"])%list
                | [r] => Ok (((a1 ++ l5) ++ input) ++ ["-S"; r])%list
                | _ => Raise (TestError
                                (Text (VStr "More than 1 rule file found")))
                end) = Ok args).
  { destruct (cfg_pcap (config t)) as [pcap|]; cbn [bind] in H.
    - subst input. exact H.
    - destruct (1 <? List.length (pcaps_found os t))%nat; [discriminate|].
      destruct (pcaps_found os t) as [|p ps]; cbn [bind] in H; subst input;
        [now rewrite app_nil_r | exact H]. }
  clear H.
  destruct (os_glob os (path_join (directory t) "*.rules"))
    as [|r [|r' rules]]; [| |discriminate];
    injection H' as <-; (split;
      [rewrite <- !app_assoc; apply Hhd
      |exists (a1 ++ l5)%list; now rewrite <- !app_assoc]).
Qed.

Lemma default_args_layout_witness :
  hd_error ["/src/src/suricata";
            "--set"; "classification-file=/src/classification.config";
            "--set"; "reference-config-file=/src/reference.config";
            "--init-errors-fatal"; "-l"; "/tests/t/output";
            "-c"; "/src/suricata.yaml";
            "-r"; "input.pcap"; "-S"; "/dev/null"]
  = Some "/src/src/suricata"
  /\ exists pre,
       ["/src/src/suricata";
        "--set"; "classification-file=/src/classification.config";
        "--set"; "reference-config-file=/src/reference.config";
        "--init-errors-fatal"; "-l"; "/tests/t/output";
        "-c"; "/src/suricata.yaml";
        "-r"; "input.pcap"; "-S"; "/dev/null"]
       = (pre ++ ["-r"; "input.pcap"] ++ ["-S"; "/dev/null"])%list.
Proof.
  exact (default_args_layout
           (os_root ["/tests/t/a.pcap"; "/tests/t/b.pcap"])
           (runner_of (mkConfig None None None None None None None
                                (Some "input.pcap") None None))
           _ eq_refl).
Defined.

(** ** The checks raise no [UnsatisfiedRequirementError] *)

Create HintDb plain.

Lemma plain_py_contains (name : string) (obj : value) (e : exn) :
  py_contains name obj = Raise e -> plain_exn e.
Proof. destruct obj; simpl; try discriminate; now intros [= <-]. Qed.

Lemma plain_getitem (obj : value) (name : string) (e : exn) :
  getitem obj name = Raise e -> plain_exn e.
Proof.
  destruct obj; simpl; try (now intros [= <-]).
  destruct (lookup name d); [discriminate | now intros [= <-]].
Qed.

Lemma plain_getitem_of (obj key : value) (e : exn) :
  getitem_of obj key = Raise e -> plain_exn e.
Proof.
  destruct key; simpl; try (now intros [= <-]). apply plain_getitem.
Qed.

Lemma plain_fmt_d (v : value) (e : exn) : fmt_d v = Raise e -> plain_exn e.
Proof.
  unfold fmt_d. destruct (as_number v); [discriminate | now intros [= <-]].
Qed.

Lemma plain_py_iter (v : value) (e : exn) : py_iter v = Raise e -> plain_exn e.
Proof. destruct v; simpl; try discriminate; now intros [= <-]. Qed.

Lemma plain_find_value (name : string) (obj : value) (e : exn) :
  find_value name obj = Raise e -> plain_exn e.
Proof. intro H. now rewrite (find_parts_raises _ _ _ H). Qed.

Lemma plain_find_value_of (key obj : value) (e : exn) :
  find_value_of key obj = Raise e -> plain_exn e.
Proof.
  destruct key; simpl; try (now intros [= <-]). apply plain_find_value.
Qed.

#[local] Hint Resolve plain_py_contains plain_getitem plain_getitem_of
  plain_fmt_d plain_py_iter plain_find_value plain_find_value_of : plain.

(** Case analysis of a computation that raises, down to the calls that the
    hints or the hypotheses cover. *)
Ltac plain H :=
  first
    [ solve [eauto with plain]
    | match type of H with
      | Ok _ = Raise _ => discriminate H
      | Raise _ = Raise _ => injection H as <-; exact I
      | bind _ _ = Raise _ =>
          apply bind_raises in H as [H|(? & ? & H)]; plain H
      | (if ?b then _ else _) = Raise _ => destruct b; plain H
      | match ?x with _ => _ end = Raise _ => destruct x; plain H
      end ].

Lemma plain_match_items (items : dict) (event : value) (e : exn) :
  match_items items event = Raise e -> plain_exn e.
Proof.
  induction items as [|[key expected] items IH]; simpl; intro H; plain H.
Qed.

#[local] Hint Resolve plain_match_items : plain.

Lemma plain_FilterCheck_match (config event : value) (e : exn) :
  FilterCheck_match config event = Raise e -> plain_exn e.
Proof. unfold FilterCheck_match. intro H. plain H. Qed.

#[local] Hint Resolve plain_FilterCheck_match : plain.

Lemma plain_count_matches (config : value) (c : Z) (events : list value)
  (e : exn) :
  count_matches config c events = Raise e -> plain_exn e.
Proof.
  revert c. induction events as [|event rest IH]; simpl; intros c H;
    [discriminate|].
  apply bind_raises in H as [H|(hit & _ & H)]; eauto with plain.
Qed.

#[local] Hint Resolve plain_count_matches : plain.

Lemma plain_FilterCheck_run (config : value)
  (files : string -> option (list value)) (e : exn) :
  FilterCheck_run config files = Raise e -> plain_exn e.
Proof. unfold FilterCheck_run. intro H. plain H. Qed.

Lemma plain_last_stats (stats : value) (events : list value) (e : exn) :
  last_stats stats events = Raise e -> plain_exn e.
Proof.
  revert stats. induction events as [|event rest IH]; simpl; intros stats H;
    plain H.
Qed.

Lemma plain_check_stats (config : value) (keys : list value) (stats : value)
  (e : exn) :
  check_stats config keys stats = Raise e -> plain_exn e.
Proof.
  induction keys as [|key rest IH]; simpl; intro H; plain H.
Qed.

#[local] Hint Resolve plain_FilterCheck_run plain_last_stats
  plain_check_stats : plain.

Lemma plain_StatsCheck_run (config : value) (eve : option (list value))
  (e : exn) :
  StatsCheck_run config eve = Raise e -> plain_exn e.
Proof. unfold StatsCheck_run. intro H. plain H. Qed.

Lemma plain_ShellCheck_run (os : OS) (config : value) (e : exn) :
  ShellCheck_run os config = Raise e -> plain_exn e.
Proof. unfold ShellCheck_run. intro H. plain H. Qed.

#[local] Hint Resolve plain_StatsCheck_run plain_ShellCheck_run : plain.

Lemma plain_check_keys (os : OS) (k : nat) (check : dict) (e : exn) :
  check_keys os k check = Raise e -> plain_exn e.
Proof.
  induction check as [|[key conf] rest IH]; simpl; intro H; plain H.
Qed.

#[local] Hint Resolve plain_check_keys : plain.

Lemma plain_check_all (os : OS) (k : nat) (checks : list dict) (e : exn) :
  check_all os k checks = Raise e -> plain_exn e.
Proof.
  induction checks as [|c rest IH]; simpl; intro H; plain H.
Qed.

(** ** ExecutionCoordinator: the trace of a run *)

Lemma spawns_app (a b : list effect) :
  spawns (a ++ b) = (spawns a + spawns b)%nat.
Proof. unfold spawns. now rewrite filter_app, length_app. Qed.

Lemma verifications_app (a b : list effect) :
  verifications (a ++ b) = (verifications a + verifications b)%nat.
Proof. unfold verifications. now rewrite filter_app, length_app. Qed.

Lemma spawns_setup (scripts : list string) : spawns (map Setup scripts) = 0%nat.
Proof. induction scripts; simpl; auto. Qed.

Lemma verifications_setup (scripts : list string) :
  verifications (map Setup scripts) = 0%nat.
Proof. induction scripts; simpl; auto. Qed.

Lemma ran_scripts_app (os : OS) (a b : list string) :
  ran_scripts os (a ++ b)
  = if scripts_succeed os a then (a ++ ran_scripts os b)%list
    else ran_scripts os a.
Proof.
  induction a as [|s a IH]; simpl; [reflexivity|].
  destruct (os_call os s =? 0); simpl; [|reflexivity].
  rewrite IH. now destruct (scripts_succeed os a).
Qed.

Lemma ran_scripts_all (os : OS) (a : list string) :
  scripts_succeed os a = true -> ran_scripts os a = a.
Proof.
  induction a as [|s a IH]; simpl; [reflexivity|].
  intro H. apply andb_true_iff in H as [Hs Ha]. now rewrite Hs, IH.
Qed.

Section Traces.

Variable os : OS.

Lemma setup_step_spec (commands : list (string * string)) (tr : list effect) :
  let scripts :=
    map snd (filter (fun cs => String.eqb (fst cs) "script") commands) in
  setup_step os commands tr
  = (if scripts_succeed os scripts then Ok tt else Raise CalledProcessError,
     (tr ++ map Setup (ran_scripts os scripts))%list).
Proof.
  revert tr. induction commands as [|[command script] rest IH]; intro tr;
    simpl.
  - now rewrite app_nil_r.
  - unfold mbind. destruct (String.eqb command "script"); simpl.
    + unfold check_call, mbind, emit, ret, raise.
      destruct (os_call os script =? 0); simpl.
      * rewrite IH. now rewrite <- app_assoc.
      * reflexivity.
    + unfold ret. apply IH.
Qed.

Lemma setup_steps_spec (steps : list (list (string * string)))
  (tr : list effect) :
  setup_steps os steps tr
  = (if scripts_succeed os (setup_scripts steps)
     then Ok tt else Raise CalledProcessError,
     (tr ++ map Setup (ran_scripts os (setup_scripts steps)))%list).
Proof.
  revert tr. induction steps as [|step rest IH]; intro tr; simpl.
  - now rewrite app_nil_r.
  - unfold mbind. rewrite setup_step_spec, ran_scripts_app.
    unfold scripts_succeed at 2. rewrite forallb_app.
    fold (scripts_succeed os
            (map snd (filter (fun cs => String.eqb (fst cs) "script") step))).
    fold (scripts_succeed os (setup_scripts rest)).
    destruct (scripts_succeed os
                (map snd (filter (fun cs => String.eqb (fst cs) "script")
                                 step))) eqn:Es; simpl; [|reflexivity].
    rewrite IH, map_app, <- app_assoc, (ran_scripts_all _ _ Es).
    reflexivity.
Qed.

Lemma setup_spec (t : TestRunner) (tr : list effect) :
  setup os t tr
  = (if scripts_succeed os (setup_scripts (declared_setup t))
     then Ok tt else Raise CalledProcessError,
     (tr ++ map Setup
               (ran_scripts os (setup_scripts (declared_setup t))))%list).
Proof.
  unfold setup, declared_setup. destruct (cfg_setup (config t)).
  - apply setup_steps_spec.
  - simpl. now rewrite app_nil_r.
Qed.

(** [check] enters once and spawns nothing. *)
Lemma check_spec (t : TestRunner) (k : nat) (tr : list effect) :
  exists tr',
    snd (check os t k tr) = (tr ++ Verify k :: tr')%list
    /\ spawns tr' = 0%nat /\ verifications tr' = 0%nat
    /\ (forall e, fst (check os t k tr) = Raise e -> plain_exn e).
Proof.
  unfold check, mbind, emit, lift, ret.
  destruct (cfg_pre_check (config t)) as [line|];
    (destruct (match cfg_checks (config t) with
               | Some checks => check_all os k checks
               | None => Ok tt
               end) as [[]|err] eqn:Ec;
     [destruct (os_path_exists os (path_join (directory t) "check.sh"));
      simpl; [destruct (os_call os _ =? 0); simpl|]|]);
    rewrite <- ?app_assoc; simpl;
    eexists; (split; [reflexivity|]);
    (split; [reflexivity|]); (split; [reflexivity|]);
    intros e H; try discriminate;
    injection H as <-;
    (destruct (cfg_checks (config t));
     [eapply plain_check_all; eassumption | discriminate]).
Qed.

End Traces.

Section Loop.

Variables (os : OS) (t : TestRunner) (args : command) (total : Z).

(** One repetition of the loop of [run], up to the comparison of the exit
    status. *)
Lemma run_loop_step (n k : nat) (tr : list effect) :
  run_loop os t args (expected_exit_code t) total (S n) k tr
  = let scripts := setup_scripts (declared_setup t) in
    if scripts_succeed os scripts then
      let tr1 := (tr ++ [CleanOutput] ++ map Setup scripts
                     ++ [WriteCmdline args; Popen args])%list in
      if os_popen os k args =? expected_exit_code t then
        match check os t k tr1 with
        | (Ok true, tr2) =>
            run_loop os t args (expected_exit_code t) total n (S k) tr2
        | (Ok false, tr2) => (Ok false, tr2)
        | (Raise e, tr2) => (Raise e, tr2)
        end
      else (Raise (TestError
                     (Format "got exit code %d, expected %d"
                             [VInt (os_popen os k args);
                              VInt (expected_exit_code t)])), tr1)
    else (Raise CalledProcessError,
          (tr ++ [CleanOutput] ++ map Setup (ran_scripts os scripts))%list).
Proof.
  cbn [run_loop]. unfold mbind at 1. unfold emit at 1.
  unfold mbind at 1. rewrite setup_spec. cbv zeta.
  destruct (scripts_succeed os (setup_scripts (declared_setup t))) eqn:Es.
  - rewrite (ran_scripts_all _ _ Es).
    unfold mbind, emit, raise, ret. rewrite <- !app_assoc. simpl.
    destruct (os_popen os k args =? expected_exit_code t); simpl;
      [|reflexivity].
    destruct (check os t k _) as [[[|]|e] tr2]; reflexivity.
  - now rewrite <- app_assoc.
Qed.

Lemma run_loop_spec (n k : nat) (tr : list effect) :
  exists tr',
    snd (run_loop os t args (expected_exit_code t) total n k tr)
    = (tr ++ tr')%list
    /\ (spawns tr' <= n)%nat
    /\ (verifications tr' <= spawns tr')%nat
    /\ (spawns tr' <= S (verifications tr'))%nat
    /\ (fst (run_loop os t args (expected_exit_code t) total n k tr) = Ok true
        -> spawns tr' = n /\ verifications tr' = n)
    /\ (forall e,
          fst (run_loop os t args (expected_exit_code t) total n k tr)
          = Raise e -> plain_exn e).
Proof.
  revert k tr. induction n as [|n IH]; intros k tr.
  - simpl. unfold mbind, emit, ret. simpl. eexists. split; [reflexivity|].
    repeat split; try reflexivity;
      try (unfold spawns, verifications; simpl; lia); discriminate.
  - rewrite run_loop_step. cbv zeta.
    destruct (scripts_succeed os (setup_scripts (declared_setup t))).
    + destruct (os_popen os k args =? expected_exit_code t).
      * set (tr1 := (tr ++ _)%list).
        destruct (check_spec os t k tr1) as (trc & Hc & Hs & Hv & Hp).
        destruct (check os t k tr1) as [r tr2]. simpl in Hc, Hp. subst tr2.
        assert (Hpre : forall l,
                   ((tr1 ++ Verify k :: trc) ++ l)%list
                   = (tr ++ ([CleanOutput]
                             ++ map Setup (setup_scripts (declared_setup t))
                             ++ [WriteCmdline args; Popen args])
                         ++ (Verify k :: trc) ++ l)%list).
        { intro l. subst tr1. now rewrite <- !app_assoc. }
        assert (Hsp : forall l,
                   spawns (([CleanOutput]
                            ++ map Setup (setup_scripts (declared_setup t))
                            ++ [WriteCmdline args; Popen args])
                           ++ (Verify k :: trc) ++ l)
                   = S (spawns l)).
        { intro l. rewrite !spawns_app, spawns_setup.
          change (Verify k :: trc) with ([Verify k] ++ trc)%list.
          rewrite spawns_app, Hs. reflexivity. }
        assert (Hve : forall l,
                   verifications
                     (([CleanOutput]
                       ++ map Setup (setup_scripts (declared_setup t))
                       ++ [WriteCmdline args; Popen args])
                      ++ (Verify k :: trc) ++ l)
                   = S (verifications l)).
        { intro l. rewrite !verifications_app, verifications_setup.
          change (Verify k :: trc) with ([Verify k] ++ trc)%list.
          rewrite verifications_app, Hv. reflexivity. }
        destruct r as [[|]|e].
        -- destruct (IH (S k) (tr1 ++ Verify k :: trc)%list)
             as (tr' & E & H1 & H2 & H3 & H4 & H5).
           eexists. split; [rewrite E; apply Hpre|].
           rewrite Hsp, Hve.
           split; [lia|]. split; [lia|]. split; [lia|].
           split; [intro H; apply H4 in H; lia | exact H5].
        -- eexists. split; [simpl; rewrite <- (app_nil_r (_ ++ _ :: _));
                            apply Hpre|].
           rewrite Hsp, Hve. unfold spawns, verifications. simpl.
           split; [lia|]. split; [lia|]. split; [lia|].
           split; [discriminate | discriminate].
        -- eexists. split; [simpl; rewrite <- (app_nil_r (_ ++ _ :: _));
                            apply Hpre|].
           rewrite Hsp, Hve. unfold spawns, verifications. simpl.
           split; [lia|]. split; [lia|]. split; [lia|].
           split; [discriminate|]. intros e' [= <-]. now apply Hp.
      * eexists. split; [reflexivity|].
        rewrite !spawns_app, !verifications_app, spawns_setup,
          verifications_setup. unfold spawns, verifications. simpl.
        split; [lia|]. split; [lia|]. split; [lia|].
        split; [discriminate|]. now intros e [= <-].
    + eexists. split; [reflexivity|].
      rewrite !spawns_app, !verifications_app, spawns_setup,
        verifications_setup. unfold spawns, verifications. simpl.
      split; [lia|]. split; [lia|]. split; [lia|].
      split; [discriminate|]. now intros e [= <-].
Qed.

End Loop.

Lemma args_of_raises (os : OS) (t : TestRunner) (e : exn) :
  args_of os t = Raise e -> plain_exn e.
Proof.
  unfold args_of, default_args. cbv zeta.
  destruct (cfg_command (config t)); [discriminate|].
  destruct (cfg_pcap (config t)); cbn [bind].
  - destruct (os_glob os _) as [|r [|r' l]]; try discriminate.
    now intros [= <-].
  - destruct (1 <? List.length (pcaps_found os t))%nat; cbn [bind];
      [now intros [= <-]|].
    destruct (pcaps_found os t) as [|p ps]; cbn [bind];
      (destruct (os_glob os _) as [|r [|r' rs]]; try discriminate;
       now intros [= <-]).
Qed.

Lemma run_test_unfold (os : OS) (t : TestRunner) :
  run_test os t
  = match check_requires os t with
    | Raise e => (outcome (Raise e), [banner t])
    | Ok _ =>
        match check_skip os t with
        | Raise e => (outcome (Raise e), [banner t])
        | Ok _ =>
            match args_of os t with
            | Raise e => (outcome (Raise e), [banner t])
            | Ok args =>
                let res :=
                  run_loop os t args (expected_exit_code t)
                    (match cfg_count (config t) with
                     | Some n => n
                     | None => 1
                     end)
                    (repetitions t) 0%nat [banner t] in
                (outcome (fst res), snd res)
            end
        end
    end.
Proof.
  unfold run_test. rewrite run_unfold.
  destruct (check_requires os t); [|reflexivity].
  destruct (check_skip os t); [|reflexivity].
  destruct (args_of os t); [|reflexivity].
  cbv zeta. unfold expected_exit_code, repetitions.
  now destruct (run_loop os t _ _ _ _ 0%nat [banner t]).
Qed.

(** X24.  In every run the subject is spawned at most [count] times,
    [check] is entered only after a spawn and at most one spawn is left
    unchecked; a test that passes was spawned and checked exactly [count]
    times (once when no count is declared, never for a count below 1). *)
Theorem run_counts (os : OS) (t : TestRunner) :
  (spawns (snd (run_test os t)) <= repetitions t)%nat
  /\ (verifications (snd (run_test os t)) <= spawns (snd (run_test os t)))%nat
  /\ (spawns (snd (run_test os t))
      <= S (verifications (snd (run_test os t))))%nat
  /\ (fst (run_test os t) = Passed ->
      spawns (snd (run_test os t)) = repetitions t
      /\ verifications (snd (run_test os t)) = repetitions t).
Proof.
  rewrite run_test_unfold.
  destruct (check_requires os t) as [r|e];
    [|unfold spawns, verifications; simpl;
      repeat (split; [lia|]); destruct e; discriminate].
  destruct (check_skip os t) as [u|e];
    [|unfold spawns, verifications; simpl;
      repeat (split; [lia|]); destruct e; discriminate].
  destruct (args_of os t) as [args|e];
    [|unfold spawns, verifications; simpl;
      repeat (split; [lia|]); destruct e; discriminate].
  cbv zeta.
  destruct (run_loop_spec os t args
              (match cfg_count (config t) with Some n => n | None => 1 end)
              (repetitions t) 0%nat [banner t])
    as (tr' & E & H1 & H2 & H3 & H4 & _).
  cbn [fst snd]. rewrite E.
  change ([banner t] ++ tr')%list with (banner t :: tr').
  assert (Es : spawns (banner t :: tr') = spawns tr') by reflexivity.
  assert (Ev : verifications (banner t :: tr') = verifications tr')
    by reflexivity.
  rewrite Es, Ev. repeat (split; [lia|]).
  intro Hp. apply H4.
  destruct (fst (run_loop os t args _ _ _ 0%nat [banner t]))
    as [[|]|[]]; try discriminate; reflexivity.
Qed.

(** The trace of a test that is reported skipped, and where the skip comes
    from.  The trace holds the effects of [run] itself; the scripts of
    [requires], which [check_requires] runs, are not among them. *)
Lemma skipped_trace (os : OS) (t : TestRunner) (m : message)
  (tr : list effect) :
  run_test os t = (Skipped m, tr) ->
  tr = [banner t]
  /\ (check_requires os t = Raise (UnsatisfiedRequirementError m)
      \/ (exists r, check_requires os t = Ok r)
         /\ check_skip os t = Raise (UnsatisfiedRequirementError m)).
Proof.
  rewrite run_test_unfold.
  destruct (check_requires os t) as [r|e].
  - destruct (check_skip os t) as [u|e].
    + destruct (args_of os t) as [args|e] eqn:Ea.
      * cbv zeta.
        destruct (run_loop_spec os t args
                    (match cfg_count (config t) with
                     | Some n => n
                     | None => 1
                     end)
                    (repetitions t) 0%nat [banner t])
          as (tr' & _ & _ & _ & _ & _ & Hp).
        destruct (fst (run_loop os t args _ _ _ 0%nat [banner t]))
          as [[|]|e]; try discriminate.
        specialize (Hp e eq_refl). destruct e; try discriminate.
        contradiction.
      * pose proof (args_of_raises os t e Ea) as Hp.
        destruct e; try discriminate. contradiction.
    + destruct e; try discriminate. intros [= <- <-]. eauto.
  - destruct e; try discriminate. intros [= <- <-]. auto.
Qed.

(** X25.  A test that is reported skipped never got past the gates: the
    output directory was not made anew, no script of [setup] was run, the
    subject was not spawned and [check] was not entered.  The skip comes
    from [check_requires] or, when that returned, from [check_skip]: the
    loop of [run] and the checks never raise an
    [UnsatisfiedRequirementError]. *)
Theorem skipped_before_loop (os : OS) (t : TestRunner) (m : message)
  (tr : list effect) :
  run_test os t = (Skipped m, tr) ->
  existsb is_clean_output tr = false
  /\ existsb is_setup tr = false
  /\ spawns tr = 0%nat
  /\ verifications tr = 0%nat
  /\ (check_requires os t = Raise (UnsatisfiedRequirementError m)
      \/ (exists r, check_requires os t = Ok r)
         /\ check_skip os t = Raise (UnsatisfiedRequirementError m)).
Proof.
  intro H. destruct (skipped_trace os t m tr H) as [-> Hgate].
  repeat split; try reflexivity. exact Hgate.
Qed.

Lemma skipped_before_loop_witness :
  existsb is_clean_output
    [banner (runner_of (mkConfig None (Some skip_root) None None None None
                                 None None None None))] = false
  /\ existsb is_setup
       [banner (runner_of (mkConfig None (Some skip_root) None None None None
                                    None None None None))] = false
  /\ spawns
       [banner (runner_of (mkConfig None (Some skip_root) None None None None
                                    None None None None))] = 0%nat
  /\ verifications
       [banner (runner_of (mkConfig None (Some skip_root) None None None None
                                    None None None None))] = 0%nat
  /\ (check_requires (os_root ["/tests/t/a.pcap"])
        (runner_of (mkConfig None (Some skip_root) None None None None
                             None None None None))
      = Raise (UnsatisfiedRequirementError (Text (VStr "no root")))
      \/ (exists r,
             check_requires (os_root ["/tests/t/a.pcap"])
               (runner_of (mkConfig None (Some skip_root) None None None None
                                    None None None None)) = Ok r)
         /\ check_skip (os_root ["/tests/t/a.pcap"])
              (runner_of (mkConfig None (Some skip_root) None None None None
                                   None None None None))
            = Raise (UnsatisfiedRequirementError (Text (VStr "no root")))).
Proof.
  exact (skipped_before_loop (os_root ["/tests/t/a.pcap"])
           (runner_of (mkConfig None (Some skip_root) None None None None
                                None None None None))
           (Text (VStr "no root")) _ eq_refl).
Defined.



(** X27.  When the first run of the subject ends with a status other than
    the expected one (0 when none is declared), the test fails with both
    statuses in its message: the subject was spawned once, [check] was not
    entered and no run follows. *)
Theorem exit_code_mismatch (os : OS) (t : TestRunner) (r : option bool)
  (args : command) :
  check_requires os t = Ok r -> check_skip os t = Ok tt ->
  args_of os t = Ok args -> (0 < repetitions t)%nat ->
  scripts_succeed os (setup_scripts (declared_setup t)) = true ->
  os_popen os 0%nat args <> expected_exit_code t ->
  run_test os t
  = (Failed (Some (Format "got exit code %d, expected %d"
                          [VInt (os_popen os 0%nat args);
                           VInt (expected_exit_code t)])),
     [banner t; CleanOutput]
       ++ map Setup (setup_scripts (declared_setup t))
       ++ [WriteCmdline args; Popen args])%list
  /\ spawns (snd (run_test os t)) = 1%nat
  /\ verifications (snd (run_test os t)) = 0%nat.
Proof.
  intros Hr Hs Ha Hn Hok Hne.
  assert (E : run_test os t
              = (Failed (Some (Format "got exit code %d, expected %d"
                                      [VInt (os_popen os 0%nat args);
                                       VInt (expected_exit_code t)])),
                 [banner t; CleanOutput]
                   ++ map Setup (setup_scripts (declared_setup t))
                   ++ [WriteCmdline args; Popen args])%list).
  { rewrite run_test_unfold, Hr, Hs, Ha. cbv zeta.
    destruct (repetitions t) as [|n]; [lia|].
    rewrite run_loop_step. cbv zeta. rewrite Hok.
    apply Z.eqb_neq in Hne. rewrite Hne. reflexivity. }
  rewrite E. cbn [snd].
  rewrite !spawns_app, !verifications_app, spawns_setup, verifications_setup.
  repeat split.
Qed.

Lemma exit_code_mismatch_witness :
  run_test (os_root [])
    (runner_of (mkConfig None None None (Some "true") None (Some 3)
                         (Some 1) None None None))
  = (Failed (Some (Format "got exit code %d, expected %d" [VInt 0; VInt 1])),
     [banner (runner_of (mkConfig None None None (Some "true") None (Some 3)
                                  (Some 1) None None None));
      CleanOutput; WriteCmdline (Shell "true"); Popen (Shell "true")]).
Proof.
  apply (proj1 (exit_code_mismatch (os_root [])
                  (runner_of (mkConfig None None None (Some "true") None
                                       (Some 3) (Some 1) None None None))
                  None (Shell "true") eq_refl eq_refl eq_refl
                  (Nat.lt_0_succ 2) eq_refl
                  (fun H : 0 = 1 => Z.lt_irrefl 0
                     (eq_ind_r (fun z => 0 < z) Z.lt_0_1 H)))).
Defined.

(** ** SuiteDriver: the counters and the exit status *)

Lemma main_loop_all (os : OS) (tests : list TestRunner) (c : Tally) :
  existsb is_uncaught (outcomes os tests) = false ->
  main_loop os false tests c
  = (Ok (if (0 <? failed c + count_of is_failed (outcomes os tests))%nat
         then 1 else 0),
     mkTally (passed c + count_of is_passed (outcomes os tests))
             (failed c + count_of is_failed (outcomes os tests))
             (skipped c + count_of is_skipped (outcomes os tests))).
Proof.
  revert c. induction tests as [|t rest IH]; intros c H.
  - destruct c as [p f s]. unfold count_of. simpl.
    now rewrite !Nat.add_0_r.
  - simpl in H |- *. unfold count_of in *. simpl.
    destruct (fst (run_test os t)); simpl in *; try discriminate;
      rewrite (IH _ H); simpl; rewrite <- ?plus_n_Sm; reflexivity.
Qed.

(** X28.  Without [--fail] and when no run ends in an exception that [main]
    does not catch, every test is counted once, as passed, failed or
    skipped, and the exit status is 1 exactly when a test failed: skipped
    tests do not fail the suite. *)
Theorem main_counts_every_test (os : OS) (tests : list TestRunner) :
  existsb is_uncaught (outcomes os tests) = false ->
  main_loop os false tests no_tally
  = (Ok (if existsb is_failed (outcomes os tests) then 1 else 0),
     mkTally (count_of is_passed (outcomes os tests))
             (count_of is_failed (outcomes os tests))
             (count_of is_skipped (outcomes os tests)))
  /\ (count_of is_passed (outcomes os tests)
      + count_of is_failed (outcomes os tests)
      + count_of is_skipped (outcomes os tests)
      = List.length tests)%nat.
Proof.
  intro H. rewrite (main_loop_all os tests no_tally H). simpl. split.
  - f_equal. f_equal. unfold count_of.
    induction (outcomes os tests) as [|o l IH]; [reflexivity|].
    simpl in H |- *. apply orb_false_iff in H as [_ H].
    destruct (is_failed o); simpl; [reflexivity | auto].
  - unfold outcomes in *. unfold count_of.
    induction tests as [|t rest IH]; [reflexivity|].
    simpl in H |- *. apply orb_false_iff in H as [Ho H].
    specialize (IH H).
    destruct (fst (run_test os t)); simpl in *; try discriminate; lia.
Qed.

Lemma main_counts_every_test_witness :
  main_loop (os_root ["/tests/t/a.pcap"]) false
    [runner_of (mkConfig None None None None None (Some 0)
                         None None None None);
     runner_of (mkConfig None (Some skip_root) None None None None
                         None None None None)]
    no_tally
  = (Ok 0, mkTally 1 0 1).
Proof.
  exact (proj1 (main_counts_every_test (os_root ["/tests/t/a.pcap"])
                  [runner_of (mkConfig None None None None None (Some 0)
                                       None None None None);
                   runner_of (mkConfig None (Some skip_root) None None None
                                       None None None None None)]
                  eq_refl)).
Defined.

Lemma main_loop_prefix (os : OS) (fail : bool) (pre rest : list TestRunner)
  (c : Tally) :
  existsb is_uncaught (outcomes os pre) = false ->
  (fail = true -> existsb is_failed (outcomes os pre) = false) ->
  main_loop os fail (pre ++ rest) c
  = main_loop os fail rest
      (mkTally (passed c + count_of is_passed (outcomes os pre))
               (failed c + count_of is_failed (outcomes os pre))
               (skipped c + count_of is_skipped (outcomes os pre))).
Proof.
  unfold count_of, outcomes. revert c.
  induction pre as [|x l IH]; intros c Hu Hf; simpl in *.
  - destruct c. simpl. now rewrite !Nat.add_0_r.
  - apply orb_false_iff in Hu as [Hxu Hu].
    destruct (fst (run_test os x)) eqn:Ex; simpl in *; try discriminate.
    + rewrite (IH _ Hu Hf). simpl. now rewrite <- ?plus_n_Sm.
    + destruct fail.
      * specialize (Hf eq_refl). discriminate.
      * rewrite (IH _ Hu) by discriminate. simpl.
        now rewrite <- ?plus_n_Sm.
    + rewrite (IH _ Hu Hf). simpl. now rewrite <- ?plus_n_Sm.
Qed.

(** X29.  With [--fail] the suite stops at the first test that fails, with
    exit status 1: the tests before it are counted, those after it are not
    run.  With or without [--fail], a run that ends in an exception [main]
    does not catch ends the suite with that exception, after the tests
    before it were counted (with [--fail], none of them failed, or the
    suite had stopped there). *)
Theorem main_stops (os : OS) (pre post : list TestRunner) (t : TestRunner) :
  existsb is_uncaught (outcomes os pre) = false ->
  (existsb is_failed (outcomes os pre) = false ->
   is_failed (fst (run_test os t)) = true ->
   main_loop os true (pre ++ t :: post) no_tally
   = (Ok 1,
      mkTally (count_of is_passed (outcomes os pre)) 1
              (count_of is_skipped (outcomes os pre))))
  /\ (forall fail e,
         (fail = true -> existsb is_failed (outcomes os pre) = false) ->
         fst (run_test os t) = Uncaught e ->
         main_loop os fail (pre ++ t :: post) no_tally
         = (Raise e,
            mkTally (count_of is_passed (outcomes os pre))
                    (count_of is_failed (outcomes os pre))
                    (count_of is_skipped (outcomes os pre)))).
Proof.
  intros Hu. split.
  - intros Hf Ht. rewrite main_loop_prefix by auto. simpl.
    assert (E : count_of is_failed (outcomes os pre) = 0%nat).
    { unfold count_of. clear - Hf.
      induction (outcomes os pre) as [|o l IH]; [reflexivity|].
      simpl in Hf |- *. apply orb_false_iff in Hf as [Ho Hl].
      rewrite Ho. auto. }
    rewrite E. destruct (fst (run_test os t)); try discriminate.
    reflexivity.
  - intros fail e Hf Ht. rewrite main_loop_prefix by auto. simpl.
    now rewrite Ht.
Qed.

(** The theorem with [--fail] after a skipped test, and without [--fail]
    after a test that failed: the suite goes on to the test whose setup
    script fails and ends there with the failure counted. *)
Lemma main_stops_witness :
  main_loop (os_root ["/tests/t/a.pcap"; "/tests/t/b.pcap"]) true
    ([runner_of (mkConfig None (Some skip_root) None None None None
                          None None None None)]
       ++ runner_of empty_config :: [runner_of empty_config])
    no_tally
  = (Ok 1, mkTally 0 1 1)
  /\ main_loop
       (mkOS 0 [] (fun _ => false)
             (fun pattern =>
                if String.eqb pattern "/tests/t/*.pcap"
                then ["/tests/t/a.pcap"; "/tests/t/b.pcap"] else [])
             (fun _ => 1) (fun _ => None) (fun _ => EmptyString)
             (fun _ _ => 0) (fun _ _ => None))
       false
       ([runner_of empty_config]
          ++ runner_of (mkConfig (Some [[("script", "cp a b")]]) None None
                                 (Some "true") None None None None None None)
          :: [runner_of empty_config])
       no_tally
     = (Raise CalledProcessError, mkTally 0 1 0).
Proof.
  split.
  - exact (proj1 (main_stops
                    (os_root ["/tests/t/a.pcap"; "/tests/t/b.pcap"])
                    [runner_of (mkConfig None (Some skip_root) None None None
                                         None None None None None)]
                    [runner_of empty_config] (runner_of empty_config)
                    eq_refl) eq_refl eq_refl).
  - exact (proj2 (main_stops
                    (mkOS 0 [] (fun _ => false)
                          (fun pattern =>
                             if String.eqb pattern "/tests/t/*.pcap"
                             then ["/tests/t/a.pcap"; "/tests/t/b.pcap"]
                             else [])
                          (fun _ => 1) (fun _ => None)
                          (fun _ => EmptyString)
                          (fun _ _ => 0) (fun _ _ => None))
                    [runner_of empty_config]
                    [runner_of empty_config]
                    (runner_of (mkConfig (Some [[("script", "cp a b")]])
                                         None None (Some "true") None None
                                         None None None None))
                    eq_refl)
             false CalledProcessError
             (fun H : false = true =>
                match H in (_ = b) return (if b then _ else True) with
                | eq_refl => I
                end)
             eq_refl).
Defined.

(** ** SuricataConfig: the features of the build *)

Lemma splitlines_line (l rest : string) :
  one_line l = true ->
  splitlines (l ++ String newline rest) = l :: splitlines rest.
Proof.
  unfold one_line. induction l as [|c r IH]; intro H.
  - reflexivity.
  - simpl in H. rewrite !negb_orb in H.
    apply andb_true_iff in H as [H1 H2].
    apply andb_true_iff in H1 as [Hn Hr1].
    apply andb_true_iff in H2 as [Hc Hr2].
    apply negb_true_iff in Hn. apply negb_true_iff in Hc.
    cbn [append splitlines]. rewrite Hn, Hc.
    rewrite IH by (now rewrite Hr1, Hr2). reflexivity.
Qed.

Lemma splitlines_unlines (lines : list string) :
  forallb one_line lines = true -> splitlines (unlines lines) = lines.
Proof.
  induction lines as [|l rest IH]; simpl; [reflexivity|].
  intro H. apply andb_true_iff in H as [Hl Hr].
  now rewrite splitlines_line, IH.
Qed.

Lemma load_features_app (features : list string) (a b : list string) :
  load_features features (a ++ b)
  = match load_features features a with
    | Some loaded => load_features loaded b
    | None => None
    end.
Proof.
  revert features. induction a as [|l a IH]; intro features;
    cbn [app load_features]; [reflexivity|].
  destruct (decode l); [|reflexivity].
  destruct (is_prefix "Features:" s); apply IH.
Qed.

Lemma load_features_none (features : list string) (lines : list string) :
  forallb all_ascii lines = true ->
  forallb (fun l => negb (is_prefix "Features:" l)) lines = true ->
  load_features features lines = Some features.
Proof.
  induction lines as [|l rest IH]; cbn [load_features forallb];
    [reflexivity|].
  intros Ha H. apply andb_true_iff in Ha as [Hla Hra].
  apply andb_true_iff in H as [Hl Hr].
  apply negb_true_iff in Hl. unfold decode. rewrite Hla, Hl. auto.
Qed.

(** A line with a byte of 128 or more makes the loop raise, wherever it
    stands. *)
Lemma load_features_undecodable (features : list string)
  (lines : list string) :
  forallb all_ascii lines = false -> load_features features lines = None.
Proof.
  revert features.
  induction lines as [|l rest IH]; intro features;
    cbn [load_features forallb]; [discriminate|].
  unfold decode. destruct (all_ascii l); cbn [andb]; [|reflexivity].
  intro H. destruct (is_prefix "Features:" l); now apply IH.
Qed.

Lemma clean_word_cons (c : ascii) (r : string) :
  clean_word (String c r) = true ->
  is_uspace c = false /\ (r = EmptyString \/ clean_word r = true).
Proof.
  unfold clean_word. simpl. rewrite negb_orb. intro H.
  apply andb_true_iff in H as [Ha Hs].
  apply andb_true_iff in Ha as [_ Ha]. apply andb_true_iff in Hs as [Hc Hs].
  apply negb_true_iff in Hc. split; [exact Hc|].
  destruct r; [now left | right]. now rewrite Ha, Hs.
Qed.

Lemma clean_word_lead (w : string) :
  clean_word w = true -> lead_uspace w = false.
Proof.
  destruct w as [|c r]; [reflexivity|]. intro H.
  now destruct (clean_word_cons c r H).
Qed.

Lemma words_word (w : string) :
  clean_word w = true -> words w = [w].
Proof.
  induction w as [|c r IH]; [discriminate|]. intro H.
  destruct (clean_word_cons c r H) as [Hc [->|Hr]].
  - cbn [words lead_uspace]. now rewrite Hc.
  - cbn [words]. now rewrite Hc, (clean_word_lead r Hr), (IH Hr).
Qed.

Lemma words_word_then (w s : string) :
  clean_word w = true -> words (w ++ String " " s) = w :: words s.
Proof.
  induction w as [|c r IH]; [discriminate|]. intro H.
  destruct (clean_word_cons c r H) as [Hc [->|Hr]].
  - cbn [append words lead_uspace]. rewrite Hc. reflexivity.
  - cbn [append words]. rewrite Hc.
    assert (Hl : lead_uspace (r ++ String " " s) = false)
      by (destruct r; [discriminate | exact (clean_word_lead _ Hr)]).
    now rewrite Hl, (IH Hr).
Qed.

Lemma words_join (ws : list string) :
  forallb clean_word ws = true -> words (join_words ws) = ws.
Proof.
  induction ws as [|w rest IH]; [reflexivity|].
  intro H. simpl in H. apply andb_true_iff in H as [Hw Hr].
  destruct rest as [|w' rest'].
  - simpl. now apply words_word.
  - change (join_words (w :: w' :: rest'))
      with (w ++ String " " (join_words (w' :: rest'))).
    now rewrite words_word_then, IH.
Qed.

Lemma is_prefix_app (p s : string) : is_prefix p (p ++ s) = true.
Proof.
  induction p as [|c r IH]; simpl; [reflexivity|].
  now rewrite Ascii.eqb_refl.
Qed.

Lemma space_no_char (x : ascii) (s : string) :
  is_uspace x = true -> has_space s = false -> has_char x s = false.
Proof.
  intro Hx. induction s as [|c r IH]; simpl; [reflexivity|].
  intro H. apply orb_false_iff in H as [Hc Hr]. rewrite IH by assumption.
  destruct (Ascii.eqb_spec c x) as [->|_]; [congruence | reflexivity].
Qed.

Lemma all_ascii_app (a b : string) :
  all_ascii (a ++ b) = all_ascii a && all_ascii b.
Proof.
  induction a as [|c r IH]; simpl; [reflexivity|].
  now rewrite IH, andb_assoc.
Qed.

Lemma clean_word_parts (w : string) :
  clean_word w = true ->
  all_ascii w = true /\ has_char newline w = false
  /\ has_char (ascii_of_nat 13) w = false.
Proof.
  unfold clean_word. intro H. apply andb_true_iff in H as [H Hs].
  apply andb_true_iff in H as [_ Ha]. apply negb_true_iff in Hs.
  split; [exact Ha|]. split; now apply space_no_char.
Qed.

Lemma join_words_line (ws : list string) :
  forallb clean_word ws = true ->
  one_line (join_words ws) = true /\ all_ascii (join_words ws) = true.
Proof.
  unfold one_line.
  induction ws as [|w rest IH]; [split; reflexivity|].
  intro H. simpl in H. apply andb_true_iff in H as [Hc Hr].
  destruct (clean_word_parts w Hc) as (Ha & H1 & H2).
  destruct rest as [|w' rest'].
  - simpl. now rewrite H1, H2, Ha.
  - change (join_words (w :: w' :: rest'))
      with (w ++ String " " (join_words (w' :: rest'))).
    rewrite !has_char_app, all_ascii_app, H1, H2, Ha.
    destruct (IH Hr) as [I I3]. apply andb_true_iff in I as [I1 I2].
    apply negb_true_iff in I1. apply negb_true_iff in I2.
    cbn [has_char orb all_ascii andb].
    change (Ascii.eqb " " newline) with false.
    change (Ascii.eqb " " (ascii_of_nat 13)) with false.
    change (is_ascii " ") with true.
    cbn [orb andb]. now rewrite I1, I2, I3.
Qed.

(** X30.  Round trip of the build information.  From an ASCII output whose
    last line that starts with [Features:] lists words separated by single
    spaces, [load_build_info] loads exactly these words, whatever ASCII
    lines come before and after, and [has_feature] is membership in them.
    A byte of 128 or more in any line of the output makes it raise
    instead, and no configuration is made. *)
Theorem load_build_info_features (before after fs : list string)
  (version_output : string) (with_valgrind : bool) :
  forallb one_line before = true -> forallb one_line after = true ->
  forallb (fun l => negb (is_prefix "Features:" l)) after = true ->
  forallb clean_word fs = true ->
  let lines := (before ++ join_words ("Features:" :: fs) :: after)%list in
  (forallb all_ascii before && forallb all_ascii after = true ->
   load_build_info (unlines lines) = Some fs
   /\ exists sc,
        make_suricata_config version_output (unlines lines) with_valgrind
        = Some sc
        /\ forall feature,
             has_feature sc feature = existsb (String.eqb feature) fs)
  /\ (forallb all_ascii before && forallb all_ascii after = false ->
      load_build_info (unlines lines) = None
      /\ make_suricata_config version_output (unlines lines) with_valgrind
         = None).
Proof.
  intros Hb Ha Hn Hfs. cbv zeta.
  assert (Hall : forallb clean_word ("Features:" :: fs) = true)
    by (simpl; exact Hfs).
  destruct (join_words_line _ Hall) as [Hline Hascii].
  assert (Es : splitlines
                 (unlines (before ++ join_words ("Features:" :: fs) :: after))
               = (before ++ join_words ("Features:" :: fs) :: after)%list).
  { apply splitlines_unlines. rewrite forallb_app. cbn [forallb].
    now rewrite Hb, Ha, Hline. }
  unfold make_suricata_config, load_build_info. rewrite Es. split.
  - intro H. apply andb_true_iff in H as [Hba Haa].
    assert (E : load_features []
                  (before ++ join_words ("Features:" :: fs) :: after)
                = Some fs).
    { rewrite load_features_app.
      assert (Hpre : exists loaded, load_features [] before = Some loaded).
      { clear - Hba. generalize (@nil string).
        induction before as [|l rest IH]; intro init;
          cbn [load_features forallb] in *; [eauto|].
        apply andb_true_iff in Hba as [Hl Hr]. unfold decode. rewrite Hl.
        destruct (is_prefix "Features:" l); auto. }
      destruct Hpre as (loaded & ->).
      cbn [load_features]. unfold decode. rewrite Hascii.
      assert (Hp : is_prefix "Features:" (join_words ("Features:" :: fs))
                   = true).
      { destruct fs; [reflexivity|].
        change (join_words ("Features:" :: s :: fs))
          with ("Features:" ++ String " " (join_words (s :: fs))).
        apply is_prefix_app. }
      rewrite Hp, (words_join _ Hall). cbn [tl].
      now apply load_features_none. }
    rewrite E. split; [reflexivity|]. eexists. split; [reflexivity|].
    intro feature. reflexivity.
  - intro H.
    assert (E : load_features []
                  (before ++ join_words ("Features:" :: fs) :: after)
                = None).
    { apply load_features_undecodable. rewrite forallb_app.
      cbn [forallb]. rewrite Hascii. cbn [andb]. exact H. }
    now rewrite E.
Qed.

Lemma load_build_info_features_witness :
  load_build_info
    (unlines (["This is Suricata version 4.0.3 RELEASE"]
                ++ join_words ("Features:" :: ["PCAP_SET_BUFF"; "RUST"])
                :: ["SIMD support: none"]))
  = Some ["PCAP_SET_BUFF"; "RUST"].
Proof.
  exact (proj1 (proj1 (load_build_info_features
                         ["This is Suricata version 4.0.3 RELEASE"]
                         ["SIMD support: none"] ["PCAP_SET_BUFF"; "RUST"]
                         "4.0.3" false eq_refl eq_refl eq_refl eq_refl)
                  eq_refl)).
Defined.

(** ** The conditional parts of some properties, at concrete inputs *)

Lemma version_gte_total_preorder_witness :
  version_gte (mkVersion (Some 5) (Some 0) (Some 0))
              (mkVersion (Some 4) None None) = true.
Proof.
  exact (proj2 (proj2 version_gte_total_preorder)
           (mkVersion (Some 5) (Some 0) (Some 0))
           (mkVersion (Some 4) (Some 1) (Some 0))
           (mkVersion (Some 4) None None) eq_refl eq_refl).
Defined.

Lemma parse_suricata_version_total_witness :
  exists n, major (mkVersion (Some 4) (Some 1) None) = Some n.
Proof.
  exact (proj1 (proj2 (parse_suricata_version_total "v4.1-beta")
                  (mkVersion (Some 4) (Some 1) None) eq_refl)).
Defined.

Lemma check_skip_passes_iff_witness :
  exists m,
    UnsatisfiedRequirementError (Text (VStr "no root"))
    = UnsatisfiedRequirementError m.
Proof.
  exact (proj2 (check_skip_passes_iff (os_root [])
                  (runner_of (mkConfig None (Some skip_root) None None None
                                       None None None None None)))
           _ eq_refl).
Defined.

Lemma default_args_fails_iff_witness :
  TestError (Text (VStr "More than 1 pcap file found"))
  = TestError (Text (VStr "More than 1 pcap file found"))
  \/ TestError (Text (VStr "More than 1 pcap file found"))
     = TestError (Text (VStr "More than 1 rule file found")).
Proof.
  exact (proj2 (default_args_fails_iff
                  (os_root ["/tests/t/a.pcap"; "/tests/t/b.pcap"])
                  (runner_of empty_config))
           _ eq_refl).
Defined.

Lemma run_counts_witness :
  spawns (snd (run_test (os_root [])
                 (runner_of (mkConfig None None None (Some "true") None
                                      (Some 2) None None None None))))
  = 2%nat
  /\ verifications
       (snd (run_test (os_root [])
               (runner_of (mkConfig None None None (Some "true") None
                                    (Some 2) None None None None))))
     = 2%nat.
Proof.
  exact (proj2 (proj2 (proj2 (run_counts (os_root [])
                  (runner_of (mkConfig None None None (Some "true") None
                                       (Some 2) None None None None)))))
           eq_refl).
Defined.
